(** * primrose-mcp-figma: the API client's request contract, the credential
      resolver and the tool envelope, as a shallow embedding.

    The development follows the TypeScript sources:
    - [src/types/env.ts]      credentials ([parseTenantCredentials],
                              [validateCredentials]);
    - [src/client.ts]         [FigmaClientImpl] ([getAuthHeaders], [request],
                              [testConnection] and the per-operation methods);
    - [src/utils/formatters.ts] the tool envelope ([formatResponse],
                              [formatError], [formatSuccess]);
    - [src/tools/*.ts], [src/index.ts] the tool handlers and the route
                              handler [fetch].

    JavaScript values are a tagged union ([JsValue]); strings are byte
    strings (UTF-8 for text, one code unit per byte for header values);
    objects used as string maps (header records, [Headers]) are [gmap]s;
    objects whose property order is observable ([JSON.stringify]) are
    association lists.  Numbers are exact decimals [m * 10^e] together with
    [NaN]; they agree with IEEE doubles on every integer below [2^53]. *)

From Stdlib Require Import ZArith String Ascii List Lia.
From stdpp Require Import base option strings gmap.

Set Warnings "-register-all".

Local Open Scope string_scope.
Local Open Scope Z_scope.

(** ** JavaScript numbers *)

Module JsNum.

Inductive JsNumber :=
| NaN
| Dec (m : Z) (e : Z).

Definition of_Z (z : Z) : JsNumber := Dec z 0.

(** [ToBoolean] on a number: [NaN] and zero are falsy. *)
Definition truthy (n : JsNumber) : bool :=
  match n with
  | NaN => false
  | Dec m _ => negb (m =? 0)
  end.

Definition is_digit (c : ascii) : bool :=
  let n := N_of_ascii c in ((48 <=? n) && (n <=? 57))%N.

Definition digit_value (c : ascii) : Z := Z.of_N (N_of_ascii c) - 48.

Definition digit_char (d : Z) : ascii := ascii_of_N (Z.to_N (d + 48)).

(** Decimal digits of a non-negative integer, most significant first. *)
Fixpoint pos_digits (fuel : nat) (z : Z) (acc : string) : string :=
  match fuel with
  | O => acc
  | S fuel' =>
      let acc' := String (digit_char (z mod 10)) acc in
      if z <? 10 then acc' else pos_digits fuel' (z / 10) acc'
  end.

Definition nat_digits (z : Z) : string :=
  pos_digits (S (Z.to_nat (Z.log2 z))) z "".

Fixpoint zeros (n : nat) : string :=
  match n with O => "" | S n' => String "0" (zeros n') end.

Fixpoint rev_string (s acc : string) : string :=
  match s with
  | EmptyString => acc
  | String c s' => rev_string s' (String c acc)
  end.

(** Strip the zeros at the head of a reversed digit string, counting them. *)
Fixpoint strip_zeros (s : string) (count : Z) : string * Z :=
  match s with
  | String "0" s' => strip_zeros s' (count + 1)
  | _ => (s, count)
  end.

Fixpoint take (n : nat) (s : string) : string :=
  match n, s with
  | S n', String c s' => String c (take n' s')
  | _, _ => ""
  end.

Fixpoint drop (n : nat) (s : string) : string :=
  match n, s with
  | S n', String _ s' => drop n' s'
  | _, _ => s
  end.

(** [Number::toString] (radix 10) of ECMA-262, on the shortest digit string
    [digits] (length [k]) of a value whose decimal point sits after [n]
    digits. *)
Definition layout (digits : string) (n : Z) : string :=
  let k := Z.of_nat (String.length digits) in
  if (k <=? n) && (n <=? 21) then digits ++ zeros (Z.to_nat (n - k))
  else if (0 <? n) && (n <=? 21) then
    take (Z.to_nat n) digits ++ "." ++ drop (Z.to_nat n) digits
  else if (-6 <? n) && (n <=? 0) then "0." ++ zeros (Z.to_nat (- n)) ++ digits
  else
    let ex := n - 1 in
    let sign := if ex <? 0 then "-" else "+" in
    let mant := if k =? 1 then digits
                else take 1 digits ++ "." ++ drop 1 digits in
    mant ++ "e" ++ sign ++ nat_digits (Z.abs ex).

(** [String(n)] / [Number.prototype.toString]. *)
Definition to_string (n : JsNumber) : string :=
  match n with
  | NaN => "NaN"
  | Dec m e =>
      if m =? 0 then "0"
      else
        let '(rdigits, z) := strip_zeros (rev_string (nat_digits (Z.abs m)) "") 0 in
        let digits := rev_string rdigits "" in
        let n := Z.of_nat (String.length digits) + e + z in
        (if m <? 0 then "-" else "") ++ layout digits n
  end.

(** Code units that [parseInt] skips at the head of its input
    ([StrWhiteSpaceChar] restricted to code units below 256). *)
Definition is_space (c : ascii) : bool :=
  let n := N_of_ascii c in
  ((9 <=? n) && (n <=? 13) || (n =? 32) || (n =? 160))%N.

Fixpoint skip_spaces (s : string) : string :=
  match s with
  | String c s' => if is_space c then skip_spaces s' else s
  | EmptyString => s
  end.

(** Value of the longest prefix of decimal digits, [None] when it is empty. *)
Fixpoint digits_prefix (s : string) (acc : option Z) : option Z :=
  match s with
  | String c s' =>
      if is_digit c
      then digits_prefix s' (Some (10 * default 0 acc + digit_value c))
      else acc
  | EmptyString => acc
  end.

(** [parseInt(s, 10)]. *)
Definition parseInt10 (s : string) : JsNumber :=
  let s1 := skip_spaces s in
  let '(sign, s2) :=
    match s1 with
    | String "-" r => (-1, r)
    | String "+" r => (1, r)
    | _ => (1, s1)
    end in
  match digits_prefix s2 None with
  | Some v => Dec (sign * v) 0
  | None => NaN
  end.

End JsNum.
Export JsNum.

(** ** JavaScript values and JSON *)

Module Js.

Inductive JsValue :=
| JUndefined
| JNull
| JBool (b : bool)
| JNum (n : JsNumber)
| JStr (s : string)
| JArr (items : list JsValue)
| JObj (props : list (string * JsValue)).

(** [ToBoolean]. *)
Definition truthy (v : JsValue) : bool :=
  match v with
  | JUndefined | JNull => false
  | JBool b => b
  | JNum n => JsNum.truthy n
  | JStr s => negb (String.eqb s "")
  | JArr _ | JObj _ => true
  end.

Fixpoint assoc (k : string) (props : list (string * JsValue)) : option JsValue :=
  match props with
  | [] => None
  | (k', v) :: rest => if String.eqb k k' then Some v else assoc k rest
  end.

(** [props[k] = v] on an object: an existing key keeps its position. *)
Fixpoint assoc_set (k : string) (v : JsValue) (props : list (string * JsValue))
  : list (string * JsValue) :=
  match props with
  | [] => [(k, v)]
  | (k', v') :: rest =>
      if String.eqb k k' then (k, v) :: rest else (k', v') :: assoc_set k v rest
  end.

(** [v.k] for a key that no prototype defines ([message], [err], [error]):
    [None] is the [TypeError] of reading a property of [null] or
    [undefined]. *)
Definition get (v : JsValue) (k : string) : option JsValue :=
  match v with
  | JUndefined | JNull => None
  | JObj props => Some (default JUndefined (assoc k props))
  | _ => Some JUndefined
  end.

End Js.
Export Js.

(** [JSON.stringify] and [JSON.parse]. *)
Module JSON.

Definition hex_digit (n : N) : ascii :=
  ascii_of_N (if (n <? 10)%N then n + 48 else n + 87)%N.

Definition quote_char (c : ascii) : string :=
  let n := N_of_ascii c in
  if (n =? 34)%N then String (ascii_of_N 92) (String c "")
  else if (n =? 92)%N then "\\"
  else if (n =? 8)%N then "\b"
  else if (n =? 12)%N then "\f"
  else if (n =? 10)%N then "\n"
  else if (n =? 13)%N then "\r"
  else if (n =? 9)%N then "\t"
  else if (n <? 32)%N then
    "\u00" ++ String (hex_digit (n / 16)) (String (hex_digit (n mod 16)) "")
  else String c "".

Fixpoint quote_body (s : string) : string :=
  match s with
  | EmptyString => ""
  | String c s' => quote_char c ++ quote_body s'
  end.

(** [QuoteJSONString]. *)
Definition quote (s : string) : string :=
  String (ascii_of_N 34) (quote_body s) ++ String (ascii_of_N 34) "".

Definition nl : string := String (ascii_of_N 10) "".

Fixpoint join (sep : string) (parts : list string) : string :=
  match parts with
  | [] => ""
  | [p] => p
  | p :: rest => p ++ sep ++ join sep rest
  end.

(** [SerializeJSONObject] / [SerializeJSONArray]: with an empty [gap] the
    parts are joined by commas; otherwise each part goes on a line of its
    own, indented by [inner], and the closing bracket by [indent]. *)
Definition wrap (gap open close indent inner : string) (parts : list string)
  : string :=
  match parts with
  | [] => open ++ close
  | _ =>
      if String.eqb gap "" then open ++ join "," parts ++ close
      else open ++ nl ++ inner ++ join ("," ++ nl ++ inner) parts
           ++ nl ++ indent ++ close
  end.

(** [SerializeJSONProperty]; [None] is [undefined].  In an array
    [undefined] prints as [null]; in an object the property is left out. *)
Fixpoint serialize (gap indent : string) (v : JsValue) : option string :=
  let inner := indent ++ gap in
  match v with
  | JUndefined => None
  | JNull => Some "null"
  | JBool b => Some (if b then "true" else "false")
  | JNum NaN => Some "null"
  | JNum n => Some (JsNum.to_string n)
  | JStr s => Some (quote s)
  | JArr items =>
      Some (wrap gap "[" "]" indent inner
        ((fix elems (l : list JsValue) : list string :=
            match l with
            | [] => []
            | x :: r => default "null" (serialize gap inner x) :: elems r
            end) items))
  | JObj props =>
      Some (wrap gap "{" "}" indent inner
        ((fix members (l : list (string * JsValue)) : list string :=
            match l with
            | [] => []
            | (k, x) :: r =>
                match serialize gap inner x with
                | Some s =>
                    (quote k ++ (if String.eqb gap "" then ":" else ": ") ++ s)
                    :: members r
                | None => members r
                end
            end) props))
  end.

(** [JSON.stringify(value)]. *)
Definition stringify (v : JsValue) : option string := serialize "" "" v.

(** [JSON.stringify(value, null, 2)]. *)
Definition stringify2 (v : JsValue) : option string := serialize "  " "" v.

(** *** [JSON.parse]

    The ECMA-404 grammar.  Property order is insertion order, a repeated key
    keeps its first position and its last value. *)

Definition is_ws (c : ascii) : bool :=
  let n := N_of_ascii c in ((n =? 32) || (n =? 9) || (n =? 10) || (n =? 13))%N.

Fixpoint skip_ws (s : string) : string :=
  match s with
  | String c s' => if is_ws c then skip_ws s' else s
  | EmptyString => s
  end.

Fixpoint strip_prefix (p s : string) : option string :=
  match p, s with
  | EmptyString, _ => Some s
  | String a p', String b s' => if Ascii.eqb a b then strip_prefix p' s' else None
  | _, _ => None
  end.

(** The longest prefix of decimal digits, and what follows it. *)
Fixpoint span_digits (s : string) : string * string :=
  match s with
  | String c s' =>
      if is_digit c then let '(d, r) := span_digits s' in (String c d, r)
      else ("", s)
  | EmptyString => ("", "")
  end.

Fixpoint digits_value (s : string) (acc : Z) : Z :=
  match s with
  | String c s' => digits_value s' (10 * acc + digit_value c)
  | EmptyString => acc
  end.

Definition parse_fraction (s : string) : option (string * string) :=
  match s with
  | String "." r =>
      let '(d, r') := span_digits r in
      if String.eqb d "" then None else Some (d, r')
  | _ => Some ("", s)
  end.

Definition parse_exponent (s : string) : option (Z * string) :=
  let digits sign r :=
    let '(d, r') := span_digits r in
    if String.eqb d "" then None else Some (sign * digits_value d 0, r') in
  let signed r :=
    match r with
    | String "-" r' => digits (-1) r'
    | String "+" r' => digits 1 r'
    | _ => digits 1 r
    end in
  match s with
  | String "e" r => signed r
  | String "E" r => signed r
  | _ => Some (0, s)
  end.

Definition parse_number (s : string) : option (JsNumber * string) :=
  let '(sign, s1) := match s with String "-" r => (-1, r) | _ => (1, s) end in
  ip ← match s1 with
       | String "0" r => Some ("0", r)
       | String c _ =>
           if is_digit c then Some (span_digits s1) else None
       | EmptyString => None
       end;
  let '(int_digits, s2) := ip in
  fp ← parse_fraction s2;
  let '(frac_digits, s3) := fp in
  ep ← parse_exponent s3;
  let '(ex, s4) := ep in
  Some (Dec (sign * digits_value (int_digits ++ frac_digits) 0)
            (ex - Z.of_nat (String.length frac_digits)), s4).

Definition hex_value (c : ascii) : option N :=
  let n := N_of_ascii c in
  if ((48 <=? n) && (n <=? 57))%N then Some (n - 48)%N
  else if ((65 <=? n) && (n <=? 70))%N then Some (n - 55)%N
  else if ((97 <=? n) && (n <=? 102))%N then Some (n - 87)%N
  else None.

Definition hex4 (a b c d : ascii) : option N :=
  x ← hex_value a; y ← hex_value b; z ← hex_value c; w ← hex_value d;
  Some (((x * 16 + y) * 16 + z) * 16 + w)%N.

Definition byte (n : N) : string := String (ascii_of_N n) "".

(** UTF-8 bytes of a code point. *)
Definition utf8 (cp : N) : string :=
  (if cp <? 128 then byte cp
   else if cp <? 2048 then byte (192 + cp / 64) ++ byte (128 + cp mod 64)
   else if cp <? 65536 then
     byte (224 + cp / 4096) ++ byte (128 + (cp / 64) mod 64)
     ++ byte (128 + cp mod 64)
   else
     byte (240 + cp / 262144) ++ byte (128 + (cp / 4096) mod 64)
     ++ byte (128 + (cp / 64) mod 64) ++ byte (128 + cp mod 64))%N.

Definition is_high (u : N) : bool := ((55296 <=? u) && (u <=? 56319))%N.
Definition is_low (u : N) : bool := ((56320 <=? u) && (u <=? 57343))%N.

(** The characters of a string literal after its opening quote, and what
    follows the closing quote. *)
Fixpoint parse_string_body (s : string) : option (string * string) :=
  let cons (pre : string) (r : option (string * string)) :=
    match r with Some (body, rest) => Some (pre ++ body, rest) | None => None end in
  match s with
  | EmptyString => None
  | String c r =>
      let n := N_of_ascii c in
      if (n =? 34)%N then Some ("", r)
      else if (n <? 32)%N then None
      else if (n =? 92)%N then
        match r with
        | String "u" (String a (String b (String x (String y r1)))) =>
            match hex4 a b x y with
            | None => None
            | Some u =>
                match r1 with
                | String bs (String "u" (String a' (String b' (String x' (String y' r2))))) =>
                    match hex4 a' b' x' y' with
                    | Some l =>
                        if (N_of_ascii bs =? 92)%N && is_high u && is_low l
                        then cons (utf8 (65536 + (u - 55296) * 1024 + (l - 56320))%N)
                                  (parse_string_body r2)
                        else cons (utf8 u) (parse_string_body r1)
                    | None => cons (utf8 u) (parse_string_body r1)
                    end
                | _ => cons (utf8 u) (parse_string_body r1)
                end
            end
        | String e r1 =>
            let m := N_of_ascii e in
            if ((m =? 34) || (m =? 92) || (m =? 47))%N
            then cons (String e "") (parse_string_body r1)
            else match e with
                 | "b" => cons (byte 8) (parse_string_body r1)
                 | "f" => cons (byte 12) (parse_string_body r1)
                 | "n" => cons (byte 10) (parse_string_body r1)
                 | "r" => cons (byte 13) (parse_string_body r1)
                 | "t" => cons (byte 9) (parse_string_body r1)
                 | _ => None
                 end%char
        | EmptyString => None
        end
      else cons (String c "") (parse_string_body r)
  end.

Definition is_quote (c : ascii) : bool := (N_of_ascii c =? 34)%N.

Fixpoint parse_value (fuel : nat) (s : string) : option (JsValue * string) :=
  match fuel with
  | O => None
  | S fuel' =>
      match skip_ws s with
      | EmptyString => None
      | String c r as s1 =>
          if is_quote c then
            match parse_string_body r with
            | Some (str, rest) => Some (JStr str, rest)
            | None => None
            end
          else match c with
          | "{" =>
              match skip_ws r with
              | String "}" rest => Some (JObj [], rest)
              | r1 => parse_members fuel' r1 []
              end
          | "[" =>
              match skip_ws r with
              | String "]" rest => Some (JArr [], rest)
              | r1 => parse_elements fuel' r1 []
              end
          | "t" => rest ← strip_prefix "true" s1; Some (JBool true, rest)
          | "f" => rest ← strip_prefix "false" s1; Some (JBool false, rest)
          | "n" => rest ← strip_prefix "null" s1; Some (JNull, rest)
          | _ => match parse_number s1 with
                 | Some (n, rest) => Some (JNum n, rest)
                 | None => None
                 end
          end%char
      end
  end
with parse_elements (fuel : nat) (s : string) (acc : list JsValue)
  : option (JsValue * string) :=
  match fuel with
  | O => None
  | S fuel' =>
      match parse_value fuel' s with
      | None => None
      | Some (v, r) =>
          match skip_ws r with
          | String "," r1 => parse_elements fuel' r1 (acc ++ [v])
          | String "]" r1 => Some (JArr (acc ++ [v]), r1)
          | _ => None
          end
      end
  end
with parse_members (fuel : nat) (s : string) (acc : list (string * JsValue))
  : option (JsValue * string) :=
  match fuel with
  | O => None
  | S fuel' =>
      match skip_ws s with
      | String c r =>
          if is_quote c then
            match parse_string_body r with
            | None => None
            | Some (k, r1) =>
                match skip_ws r1 with
                | String ":" r2 =>
                    match parse_value fuel' r2 with
                    | None => None
                    | Some (v, r3) =>
                        match skip_ws r3 with
                        | String "," r4 => parse_members fuel' r4 (assoc_set k v acc)
                        | String "}" r4 => Some (JObj (assoc_set k v acc), r4)
                        | _ => None
                        end
                    end
                | _ => None
                end
            end
          else None
      | EmptyString => None
      end
  end.

(** [JSON.parse(text)]; [None] is the [SyntaxError]. *)
Definition parse (text : string) : option JsValue :=
  match parse_value (2 + String.length text) text with
  | Some (v, rest) => if String.eqb (skip_ws rest) "" then Some v else None
  | None => None
  end.

End JSON.

(** Test fixtures are written with apostrophes for the quotes of JSON. *)
Definition dq (s : string) : string :=
  (fix go (s : string) : string :=
     match s with
     | EmptyString => EmptyString
     | String c r =>
         String (if (N_of_ascii c =? 39)%N then ascii_of_N 34 else c) (go r)
     end) s.

(** ** HTTP: headers, inbound requests, upstream requests and responses *)

Module Http.

Definition lower_char (c : ascii) : ascii :=
  let n := N_of_ascii c in
  if ((65 <=? n) && (n <=? 90))%N then ascii_of_N (n + 32) else c.

Fixpoint lower (s : string) : string :=
  match s with
  | EmptyString => EmptyString
  | String c r => String (lower_char c) (lower r)
  end.

(** A [Headers] object: header names are stored in lower case, so that
    [get] does not depend on the case of the name asked for. *)
Abbreviation Headers := (gmap string string).

Definition headers_get (h : Headers) (name : string) : option string :=
  h !! lower name.

(** The parts of the inbound [Request] that the route handler reads. *)
Record Request := {
  pathname : string;
  method : string;
  req_headers : Headers;
}.

(** What [fetch(url, init)] is called with.  [init_headers] is the header
    record of the call, keyed by the names as the caller wrote them. *)
Record FetchCall := {
  url : string;
  init_method : option string;
  init_body : option string;
  init_headers : gmap string string;
}.

(** [fetch] sends a [GET] when [init.method] is left out. *)
Definition effective_method (c : FetchCall) : string :=
  default "GET" (init_method c).

Record Response := {
  status : Z;
  resp_headers : Headers;
  body : string;
}.

(** [response.ok]. *)
Definition ok (r : Response) : bool := (200 <=? status r) && (status r <=? 299).

End Http.
Export Http.

(** ** Thrown values *)

(** Modelled from the spec: the error classes of [src/utils/errors.ts],
    which is not among the sources.  The error taxonomy of the spec
    (authentication, forbidden, not-found carrying resource kind and path,
    rate-limit carrying retry-after seconds, generic API error carrying
    status and message) is one constructor per class, holding the arguments
    that [client.ts] passes to the class constructor.  [JsError] is a
    built-in error ([Error], [TypeError], [SyntaxError]); [ThrownValue] is a
    thrown value that is no [Error]. *)
Inductive Thrown :=
| JsError (name : string) (message : string)
| AuthenticationError (message : string)
| ForbiddenError (message : string)
| NotFoundError (resource : string) (path : string)
| RateLimitError (message : string) (retryAfter : JsNumber)
| FigmaApiError (message : JsValue) (status : Z)
| ThrownValue (v : JsValue).

Inductive ErrorKind :=
| KBuiltin | KAuthentication | KForbidden | KNotFound | KRateLimit | KApi | KValue.

Definition kind (e : Thrown) : ErrorKind :=
  match e with
  | JsError _ _ => KBuiltin
  | AuthenticationError _ => KAuthentication
  | ForbiddenError _ => KForbidden
  | NotFoundError _ _ => KNotFound
  | RateLimitError _ _ => KRateLimit
  | FigmaApiError _ _ => KApi
  | ThrownValue _ => KValue
  end.

(** The outcome of a call: a value or a thrown value. *)
Inductive Completion (A : Type) :=
| Returned (a : A)
| Threw (e : Thrown).
Arguments Returned {A} a.
Arguments Threw {A} e.

(** ** Credentials ([src/types/env.ts]) *)

Module TenantCredentials.

Record t := {
  accessToken : option string;
  baseUrl : option string;
}.

End TenantCredentials.
Import TenantCredentials(accessToken).
Abbreviation TenantCredentials := TenantCredentials.t.

(** [ToBoolean] on an optional string: [undefined], [null] and the empty
    string are falsy. *)
Definition present (o : option string) : bool :=
  match o with
  | Some s => negb (String.eqb s "")
  | None => false
  end.

(** [v || undefined] on what [Headers.get] returns. *)
Definition or_undefined (o : option string) : option string :=
  if present o then o else None.

Definition parseTenantCredentials (request : Request) : TenantCredentials :=
  let headers := req_headers request in
  {| TenantCredentials.accessToken :=
       or_undefined (headers_get headers "X-Figma-Token");
     TenantCredentials.baseUrl :=
       or_undefined (headers_get headers "X-Figma-Base-URL") |}.

Definition validateCredentials (credentials : TenantCredentials) : Completion unit :=
  if negb (present (accessToken credentials)) then
    Threw (JsError "Error"
      "Missing credentials. Provide X-Figma-Token header with your Figma personal access token.")
  else Returned tt.

(** ** The runtime the client runs on, and the client monad

    A client computation reads the runtime ([fetch] and the message the
    JSON engine puts in a [SyntaxError]) and appends every [fetch] call it
    issues to a log. *)

(** What a [fetch] call comes to: a response, or the rejection of the
    promise with a built-in error (a [TypeError] on a network failure). *)
Inductive FetchResult :=
| Responded (r : Response)
| Rejected (name message : string).

Record Runtime := {
  net : FetchCall -> FetchResult;
  syntax_error_message : string -> string;
}.

Definition Client (A : Type) : Type :=
  Runtime -> list FetchCall -> Completion A * list FetchCall.

Definition ret {A} (a : A) : Client A := fun _ log => (Returned a, log).
Definition throw {A} (e : Thrown) : Client A := fun _ log => (Threw e, log).
Definition bind {A B} (m : Client A) (k : A -> Client B) : Client B :=
  fun rt log =>
    match m rt log with
    | (Returned a, log') => k a rt log'
    | (Threw e, log') => (Threw e, log')
    end.
Definition lift {A} (c : Completion A) : Client A := fun _ log => (c, log).

(** [try { m } catch (error) { h(error) }]. *)
Definition try_catch {A} (m : Client A) (h : Thrown -> Client A) : Client A :=
  fun rt log =>
    match m rt log with
    | (Returned a, log') => (Returned a, log')
    | (Threw e, log') => h e rt log'
    end.

(** [await fetch(url, init)]. *)
Definition fetch (call : FetchCall) : Client Response :=
  fun rt log =>
    match net rt call with
    | Responded r => (Returned r, (log ++ [call])%list)
    | Rejected name message => (Threw (JsError name message), (log ++ [call])%list)
    end.

(** [await response.json()]. *)
Definition response_json (r : Response) : Client JsValue :=
  fun rt log =>
    match JSON.parse (body r) with
    | Some v => (Returned v, log)
    | None => (Threw (JsError "SyntaxError" (syntax_error_message rt (body r))), log)
    end.

#[global] Instance Client_ret : MRet Client := @ret.
#[global] Instance Client_bind : MBind Client := fun A B k m => bind m k.

(** Run a computation on a runtime, from an empty log. *)
Definition run {A} (rt : Runtime) (m : Client A) : Completion A * list FetchCall :=
  m rt [].

(** ** [URLSearchParams] *)

Module URLSearchParams.

Definition t := list (string * string).

Definition empty : t := [].

Definition remove (name : string) (p : t) : t :=
  filter (fun kv => negb (String.eqb name (fst kv))) p.

(** [params.set(name, value)]: the first pair of that name takes the value
    and the others go; with no such pair, one is appended. *)
Fixpoint set (name value : string) (p : t) : t :=
  match p with
  | [] => [(name, value)]
  | (k, v) :: rest =>
      if String.eqb name k then (k, value) :: remove name rest
      else (k, v) :: set name value rest
  end.

Definition unreserved (c : ascii) : bool :=
  let n := N_of_ascii c in
  ((48 <=? n) && (n <=? 57) || (65 <=? n) && (n <=? 90)
   || (97 <=? n) && (n <=? 122)
   || (n =? 42) || (n =? 45) || (n =? 46) || (n =? 95))%N.

Definition upper_hex (n : N) : ascii :=
  ascii_of_N (if (n <? 10)%N then n + 48 else n + 55)%N.

(** The [application/x-www-form-urlencoded] byte serializer. *)
Fixpoint encode (s : string) : string :=
  match s with
  | EmptyString => ""
  | String c r =>
      let n := N_of_ascii c in
      (if (n =? 32)%N then "+"
       else if unreserved c then String c ""
       else String "%" (String (upper_hex (n / 16)) (String (upper_hex (n mod 16)) "")))
      ++ encode r
  end.

(** [params.toString()]. *)
Definition toString (p : t) : string :=
  JSON.join "&" (map (fun kv => encode (fst kv) ++ "=" ++ encode (snd kv)) p).

End URLSearchParams.

(** ** The API client ([src/client.ts]) *)

Definition FIGMA_API_BASE_URL : string := "https://api.figma.com".

Record RequestInit := {
  opt_method : option string;
  opt_body : option string;
  opt_headers : option (gmap string string);
}.

(** [options: RequestInit = {}]. *)
Definition no_options : RequestInit :=
  {| opt_method := None; opt_body := None; opt_headers := None |}.

Definition with_method (m : string) : RequestInit :=
  {| opt_method := Some m; opt_body := None; opt_headers := None |}.

Definition with_body (m : string) (b : option string) : RequestInit :=
  {| opt_method := Some m; opt_body := b; opt_headers := None |}.

Module FigmaClientImpl.

Record t := {
  credentials : TenantCredentials;
  baseUrl : string;
}.

Definition constructor (creds : TenantCredentials) : t :=
  {| credentials := creds;
     baseUrl := if present (TenantCredentials.baseUrl creds)
                then default "" (TenantCredentials.baseUrl creds)
                else FIGMA_API_BASE_URL |}.

End FigmaClientImpl.
Import FigmaClientImpl(credentials).
Abbreviation FigmaClientImpl := FigmaClientImpl.t.

Definition getAuthHeaders (this : FigmaClientImpl) : Completion (gmap string string) :=
  if negb (present (accessToken (credentials this))) then
    Threw (AuthenticationError
      "No credentials provided. Include X-Figma-Token header with your Figma personal access token.")
  else
    Returned (<["X-Figma-Token" := default "" (accessToken (credentials this))]>
              (<["Content-Type" := "application/json"]> ∅)).

(** [errorJson.message || errorJson.err || errorJson.error || message];
    [None] is the [TypeError] of reading a property of [null]. *)
Definition extract_message (errorJson message : JsValue) : option JsValue :=
  m ← Js.get errorJson "message";
  if Js.truthy m then Some m else
  e ← Js.get errorJson "err";
  if Js.truthy e then Some e else
  r ← Js.get errorJson "error";
  if Js.truthy r then Some r else Some message.

(** The message of a generic API error: the [try] block around
    [JSON.parse] and the property reads keeps the default on any throw. *)
Definition error_message_of (r : Response) : JsValue :=
  let errorBody := body r in
  let message := JStr ("API error: " ++ JsNum.to_string (of_Z (status r))) in
  match JSON.parse errorBody with
  | Some errorJson => default message (extract_message errorJson message)
  | None => message
  end.

(** Classification of the response, after [fetch] has returned it. *)
Definition classify (endpoint : string) (response : Response) : Client JsValue :=
  if status response =? 429 then
    let retryAfter := headers_get (resp_headers response) "Retry-After" in
    throw (RateLimitError "Rate limit exceeded"
             (if present retryAfter then parseInt10 (default "" retryAfter)
              else of_Z 60))
  else if status response =? 401 then
    throw (AuthenticationError
             "Authentication failed. Check your Figma personal access token.")
  else if status response =? 403 then
    throw (ForbiddenError
             "Access forbidden. You may not have permission to access this resource.")
  else if status response =? 404 then
    throw (NotFoundError "Resource" endpoint)
  else if negb (ok response) then
    throw (FigmaApiError (error_message_of response) (status response))
  else if status response =? 204 then
    ret JUndefined
  else
    response_json response.

Definition request (this : FigmaClientImpl) (endpoint : string)
    (options : RequestInit) : Client JsValue :=
  let url := FigmaClientImpl.baseUrl this ++ endpoint in
  auth ← lift (getAuthHeaders this);
  response ← fetch {| url := url;
                      init_method := opt_method options;
                      init_body := opt_body options;
                      init_headers := default ∅ (opt_headers options) ∪ auth |};
  classify endpoint response.

(** *** Options of the per-operation methods

    Every field is optional; [None] is a field left out (or [undefined]). *)

Module GetFileOptions.
Record t := { version : option string; ids : option (list string);
              depth : option JsNumber; geometry : option string;
              plugin_data : option string; branch_data : option bool }.
End GetFileOptions.

Module GetFileNodesOptions.
Record t := { version : option string; depth : option JsNumber;
              geometry : option string; plugin_data : option string }.
End GetFileNodesOptions.

Module GetImagesOptions.
Record t := { scale : option JsNumber; format : option string;
              svg_include_id : option bool; svg_include_node_id : option bool;
              svg_simplify_stroke : option bool; contents_only : option bool;
              use_absolute_bounds : option bool; version : option string }.
End GetImagesOptions.

Module GetCommentsOptions.
Record t := { as_md : option bool }.
End GetCommentsOptions.

Module PostCommentOptions.
Record t := { comment_id : option string; client_meta : option JsValue }.
End PostCommentOptions.

Module GetProjectFilesOptions.
Record t := { branch_data : option bool }.
End GetProjectFilesOptions.

Module PaginationOptions.
Record t := { page_size : option JsNumber; cursor : option string }.
End PaginationOptions.

Module GetWebhooksOptions.
Record t := { team_id : option string }.
End GetWebhooksOptions.

Module GetDevResourcesOptions.
Record t := { node_ids : option (list string) }.
End GetDevResourcesOptions.

Module GetActivityLogsOptions.
Record t := { event_type : option string; limit : option JsNumber;
              order : option string }.
End GetActivityLogsOptions.

Module GetPaymentsOptions.
Record t := { user_ids : option (list string) }.
End GetPaymentsOptions.

Module GetAnalyticsOptions.
Record t := { cursor : option string }.
End GetAnalyticsOptions.

(** [if (v) params.set(name, v)] on an optional string. *)
Definition set_string (name : string) (v : option string)
    (p : URLSearchParams.t) : URLSearchParams.t :=
  if present v then URLSearchParams.set name (default "" v) p else p.

(** [if (v) params.set(name, v.join(','))]: every array is truthy. *)
Definition set_array (name : string) (v : option (list string))
    (p : URLSearchParams.t) : URLSearchParams.t :=
  match v with
  | Some l => URLSearchParams.set name (JSON.join "," l) p
  | None => p
  end.

(** [if (v !== undefined) params.set(name, String(v))]. *)
Definition set_defined_number (name : string) (v : option JsNumber)
    (p : URLSearchParams.t) : URLSearchParams.t :=
  match v with
  | Some n => URLSearchParams.set name (JsNum.to_string n) p
  | None => p
  end.

(** [if (v) params.set(name, String(v))] on an optional number. *)
Definition set_truthy_number (name : string) (v : option JsNumber)
    (p : URLSearchParams.t) : URLSearchParams.t :=
  match v with
  | Some n => if JsNum.truthy n then URLSearchParams.set name (JsNum.to_string n) p else p
  | None => p
  end.

(** [if (v) params.set(name, 'true')] on an optional boolean. *)
Definition set_flag (name : string) (v : option bool)
    (p : URLSearchParams.t) : URLSearchParams.t :=
  match v with
  | Some true => URLSearchParams.set name "true" p
  | _ => p
  end.

(** [`${path}${query ? `?${query}` : ''}`]. *)
Definition with_query (path : string) (params : URLSearchParams.t) : string :=
  let query := URLSearchParams.toString params in
  path ++ (if String.eqb query "" then "" else "?" ++ query).

(** An optional string as the value of an object property. *)
Definition js_opt_string (o : option string) : JsValue :=
  match o with Some s => JStr s | None => JUndefined end.

Section Methods.

Variable this : FigmaClientImpl.

(** Files *)

Definition getFile (fileKey : string) (options : option GetFileOptions.t)
  : Client JsValue :=
  let params := URLSearchParams.empty in
  let params := set_string "version" (options ≫= GetFileOptions.version) params in
  let params := set_array "ids" (options ≫= GetFileOptions.ids) params in
  let params := set_defined_number "depth" (options ≫= GetFileOptions.depth) params in
  let params := set_string "geometry" (options ≫= GetFileOptions.geometry) params in
  let params := set_string "plugin_data" (options ≫= GetFileOptions.plugin_data) params in
  let params := set_flag "branch_data" (options ≫= GetFileOptions.branch_data) params in
  request this (with_query ("/v1/files/" ++ fileKey) params) no_options.

Definition getFileNodes (fileKey : string) (ids : list string)
    (options : option GetFileNodesOptions.t) : Client JsValue :=
  let params := URLSearchParams.empty in
  let params := URLSearchParams.set "ids" (JSON.join "," ids) params in
  let params := set_string "version" (options ≫= GetFileNodesOptions.version) params in
  let params := set_defined_number "depth" (options ≫= GetFileNodesOptions.depth) params in
  let params := set_string "geometry" (options ≫= GetFileNodesOptions.geometry) params in
  let params := set_string "plugin_data" (options ≫= GetFileNodesOptions.plugin_data) params in
  request this ("/v1/files/" ++ fileKey ++ "/nodes?" ++ URLSearchParams.toString params)
          no_options.

Definition getFileMeta (fileKey : string) : Client JsValue :=
  request this ("/v1/files/" ++ fileKey ++ "/meta") no_options.

Definition getImages (fileKey : string) (ids : list string)
    (options : option GetImagesOptions.t) : Client JsValue :=
  let params := URLSearchParams.empty in
  let params := URLSearchParams.set "ids" (JSON.join "," ids) params in
  let params := set_defined_number "scale" (options ≫= GetImagesOptions.scale) params in
  let params := set_string "format" (options ≫= GetImagesOptions.format) params in
  let params := set_flag "svg_include_id" (options ≫= GetImagesOptions.svg_include_id) params in
  let params := set_flag "svg_include_node_id" (options ≫= GetImagesOptions.svg_include_node_id) params in
  let params := set_flag "svg_simplify_stroke" (options ≫= GetImagesOptions.svg_simplify_stroke) params in
  let params := set_flag "contents_only" (options ≫= GetImagesOptions.contents_only) params in
  let params := set_flag "use_absolute_bounds" (options ≫= GetImagesOptions.use_absolute_bounds) params in
  let params := set_string "version" (options ≫= GetImagesOptions.version) params in
  request this ("/v1/images/" ++ fileKey ++ "?" ++ URLSearchParams.toString params)
          no_options.

Definition getImageFills (fileKey : string) : Client JsValue :=
  request this ("/v1/files/" ++ fileKey ++ "/images") no_options.

(** Versions *)

Definition getFileVersions (fileKey : string) (options : option PaginationOptions.t)
  : Client JsValue :=
  let params := URLSearchParams.empty in
  let params := set_truthy_number "page_size" (options ≫= PaginationOptions.page_size) params in
  let params := set_string "cursor" (options ≫= PaginationOptions.cursor) params in
  request this (with_query ("/v1/files/" ++ fileKey ++ "/versions") params) no_options.

(** Comments *)

Definition getComments (fileKey : string) (options : option GetCommentsOptions.t)
  : Client JsValue :=
  let params := URLSearchParams.empty in
  let params := set_flag "as_md" (options ≫= GetCommentsOptions.as_md) params in
  request this (with_query ("/v1/files/" ++ fileKey ++ "/comments") params) no_options.

Definition postComment (fileKey message : string)
    (options : option PostCommentOptions.t) : Client JsValue :=
  request this ("/v1/files/" ++ fileKey ++ "/comments")
    (with_body "POST"
       (JSON.stringify
          (JObj [("message", JStr message);
                 ("comment_id", js_opt_string (options ≫= PostCommentOptions.comment_id));
                 ("client_meta",
                  default JUndefined (options ≫= PostCommentOptions.client_meta))]))).

Definition deleteComment (fileKey commentId : string) : Client JsValue :=
  request this ("/v1/files/" ++ fileKey ++ "/comments/" ++ commentId)
          (with_method "DELETE");;
  mret JUndefined.

Definition getCommentReactions (fileKey commentId : string)
    (options : option PaginationOptions.t) : Client JsValue :=
  let params := URLSearchParams.empty in
  let params := set_string "cursor" (options ≫= PaginationOptions.cursor) params in
  request this
    (with_query ("/v1/files/" ++ fileKey ++ "/comments/" ++ commentId ++ "/reactions") params)
    no_options.

Definition postCommentReaction (fileKey commentId emoji : string) : Client JsValue :=
  request this ("/v1/files/" ++ fileKey ++ "/comments/" ++ commentId ++ "/reactions")
          (with_body "POST" (JSON.stringify (JObj [("emoji", JStr emoji)])));;
  mret JUndefined.

Definition deleteCommentReaction (fileKey commentId emoji : string) : Client JsValue :=
  let params := URLSearchParams.empty in
  let params := URLSearchParams.set "emoji" emoji params in
  request this
    ("/v1/files/" ++ fileKey ++ "/comments/" ++ commentId ++ "/reactions?"
     ++ URLSearchParams.toString params)
    (with_method "DELETE");;
  mret JUndefined.

(** Users *)

Definition getMe : Client JsValue :=
  request this "/v1/me" no_options.

(** Teams and projects *)

Definition getTeamProjects (teamId : string) : Client JsValue :=
  request this ("/v1/teams/" ++ teamId ++ "/projects") no_options.

Definition getProjectFiles (projectId : string)
    (options : option GetProjectFilesOptions.t) : Client JsValue :=
  let params := URLSearchParams.empty in
  let params := set_flag "branch_data" (options ≫= GetProjectFilesOptions.branch_data) params in
  request this (with_query ("/v1/projects/" ++ projectId ++ "/files") params) no_options.

(** Components *)

Definition getTeamComponents (teamId : string) (options : option PaginationOptions.t)
  : Client JsValue :=
  let params := URLSearchParams.empty in
  let params := set_truthy_number "page_size" (options ≫= PaginationOptions.page_size) params in
  let params := set_string "cursor" (options ≫= PaginationOptions.cursor) params in
  request this (with_query ("/v1/teams/" ++ teamId ++ "/components") params) no_options.

Definition getFileComponents (fileKey : string) : Client JsValue :=
  request this ("/v1/files/" ++ fileKey ++ "/components") no_options.

Definition getComponent (componentKey : string) : Client JsValue :=
  request this ("/v1/components/" ++ componentKey) no_options.

(** Component sets *)

Definition getTeamComponentSets (teamId : string)
    (options : option PaginationOptions.t) : Client JsValue :=
  let params := URLSearchParams.empty in
  let params := set_truthy_number "page_size" (options ≫= PaginationOptions.page_size) params in
  let params := set_string "cursor" (options ≫= PaginationOptions.cursor) params in
  request this (with_query ("/v1/teams/" ++ teamId ++ "/component_sets") params) no_options.

Definition getFileComponentSets (fileKey : string) : Client JsValue :=
  request this ("/v1/files/" ++ fileKey ++ "/component_sets") no_options.

Definition getComponentSet (componentSetKey : string) : Client JsValue :=
  request this ("/v1/component_sets/" ++ componentSetKey) no_options.

(** Styles *)

Definition getTeamStyles (teamId : string) (options : option PaginationOptions.t)
  : Client JsValue :=
  let params := URLSearchParams.empty in
  let params := set_truthy_number "page_size" (options ≫= PaginationOptions.page_size) params in
  let params := set_string "cursor" (options ≫= PaginationOptions.cursor) params in
  request this (with_query ("/v1/teams/" ++ teamId ++ "/styles") params) no_options.

Definition getFileStyles (fileKey : string) : Client JsValue :=
  request this ("/v1/files/" ++ fileKey ++ "/styles") no_options.

Definition getStyle (styleKey : string) : Client JsValue :=
  request this ("/v1/styles/" ++ styleKey) no_options.

(** Webhooks *)

Definition getWebhooks (options : option GetWebhooksOptions.t) : Client JsValue :=
  let params := URLSearchParams.empty in
  let params := set_string "team_id" (options ≫= GetWebhooksOptions.team_id) params in
  request this (with_query "/v2/webhooks" params) no_options.

Definition createWebhook (input : JsValue) : Client JsValue :=
  request this "/v2/webhooks" (with_body "POST" (JSON.stringify input)).

Definition getWebhook (webhookId : string) : Client JsValue :=
  request this ("/v2/webhooks/" ++ webhookId) no_options.

Definition updateWebhook (webhookId : string) (input : JsValue) : Client JsValue :=
  request this ("/v2/webhooks/" ++ webhookId) (with_body "PUT" (JSON.stringify input)).

Definition deleteWebhook (webhookId : string) : Client JsValue :=
  request this ("/v2/webhooks/" ++ webhookId) (with_method "DELETE");;
  mret JUndefined.

Definition getWebhookRequests (webhookId : string) : Client JsValue :=
  request this ("/v2/webhooks/" ++ webhookId ++ "/requests") no_options.

(** Variables *)

Definition getLocalVariables (fileKey : string) : Client JsValue :=
  request this ("/v1/files/" ++ fileKey ++ "/variables/local") no_options.

Definition getPublishedVariables (fileKey : string) : Client JsValue :=
  request this ("/v1/files/" ++ fileKey ++ "/variables/published") no_options.

Definition postVariables (fileKey : string) (payload : JsValue) : Client JsValue :=
  request this ("/v1/files/" ++ fileKey ++ "/variables")
          (with_body "POST" (JSON.stringify payload)).

(** Dev resources *)

Definition getDevResources (fileKey : string)
    (options : option GetDevResourcesOptions.t) : Client JsValue :=
  let params := URLSearchParams.empty in
  let params := set_array "node_ids" (options ≫= GetDevResourcesOptions.node_ids) params in
  request this (with_query ("/v1/files/" ++ fileKey ++ "/dev_resources") params) no_options.

Definition createDevResources (resources : list JsValue) : Client JsValue :=
  request this "/v1/dev_resources"
          (with_body "POST" (JSON.stringify (JObj [("dev_resources", JArr resources)]))).

Definition updateDevResources (resources : list JsValue) : Client JsValue :=
  request this "/v1/dev_resources"
          (with_body "PUT" (JSON.stringify (JObj [("dev_resources", JArr resources)]))).

Definition deleteDevResource (fileKey devResourceId : string) : Client JsValue :=
  request this ("/v1/files/" ++ fileKey ++ "/dev_resources/" ++ devResourceId)
          (with_method "DELETE");;
  mret JUndefined.

(** Activity logs *)

Definition getActivityLogs (options : option GetActivityLogsOptions.t)
  : Client JsValue :=
  let params := URLSearchParams.empty in
  let params := set_string "event_type" (options ≫= GetActivityLogsOptions.event_type) params in
  let params := set_truthy_number "limit" (options ≫= GetActivityLogsOptions.limit) params in
  let params := set_string "order" (options ≫= GetActivityLogsOptions.order) params in
  request this (with_query "/v1/activity_logs" params) no_options.

(** Payments *)

Definition getPayments (options : option GetPaymentsOptions.t) : Client JsValue :=
  let params := URLSearchParams.empty in
  let params := set_array "user_ids" (options ≫= GetPaymentsOptions.user_ids) params in
  request this (with_query "/v1/payments" params) no_options.

(** Library analytics *)

Definition getComponentActions (fileKey : string)
    (options : option GetAnalyticsOptions.t) : Client JsValue :=
  let params := URLSearchParams.empty in
  let params := set_string "cursor" (options ≫= GetAnalyticsOptions.cursor) params in
  request this
    (with_query ("/v1/analytics/libraries/" ++ fileKey ++ "/component/actions") params)
    no_options.

Definition getComponentUsages (fileKey : string)
    (options : option GetAnalyticsOptions.t) : Client JsValue :=
  let params := URLSearchParams.empty in
  let params := set_string "cursor" (options ≫= GetAnalyticsOptions.cursor) params in
  request this
    (with_query ("/v1/analytics/libraries/" ++ fileKey ++ "/component/usages") params)
    no_options.

Definition getStyleActions (fileKey : string)
    (options : option GetAnalyticsOptions.t) : Client JsValue :=
  let params := URLSearchParams.empty in
  let params := set_string "cursor" (options ≫= GetAnalyticsOptions.cursor) params in
  request this
    (with_query ("/v1/analytics/libraries/" ++ fileKey ++ "/style/actions") params)
    no_options.

Definition getStyleUsages (fileKey : string)
    (options : option GetAnalyticsOptions.t) : Client JsValue :=
  let params := URLSearchParams.empty in
  let params := set_string "cursor" (options ≫= GetAnalyticsOptions.cursor) params in
  request this
    (with_query ("/v1/analytics/libraries/" ++ fileKey ++ "/style/usages") params)
    no_options.

End Methods.

(** *** The missing module [src/utils/errors.ts] *)

(** Modelled from the spec: [src/utils/errors.ts] (the error classes and
    [formatErrorForLogging]) is not among the sources.  What the code under
    [src/] reads from it is taken as a parameter: the [message] property of
    an instance of one of the five classes, whether [error instanceof
    FigmaApiError && error.retryable] holds of it, and the details object
    that [formatErrorForLogging] builds.  The five classes are taken to
    extend [Error], as the taxonomy of the spec has it. *)
Record ErrorsTs := {
  class_message : Thrown -> string;
  retryable : Thrown -> bool;
  formatErrorForLogging : Thrown -> JsValue;
}.

(** [error instanceof Error]. *)
Definition instanceof_Error (e : Thrown) : bool :=
  match e with ThrownValue _ => false | _ => true end.

(** [error.message] of an [Error]. *)
Definition message_of (E : ErrorsTs) (e : Thrown) : string :=
  match e with
  | JsError _ m => m
  | _ => class_message E e
  end.

(** [String(v)]. *)
Fixpoint to_display (v : JsValue) : string :=
  match v with
  | JUndefined => "undefined"
  | JNull => "null"
  | JBool b => if b then "true" else "false"
  | JNum n => JsNum.to_string n
  | JStr s => s
  | JArr items =>
      JSON.join ","
        ((fix each (l : list JsValue) : list string :=
            match l with
            | [] => []
            | JUndefined :: r | JNull :: r => "" :: each r
            | x :: r => to_display x :: each r
            end) items)
  | JObj _ => "[object Object]"
  end.

(** *** [testConnection] *)

Definition testConnection (E : ErrorsTs) (this : FigmaClientImpl) : Client JsValue :=
  try_catch
    (user ← getMe this;
     mret (JObj [("connected", JBool true);
                 ("message", JStr "Successfully connected to Figma API");
                 ("user", user)]))
    (fun error =>
       mret (JObj [("connected", JBool false);
                   ("message", JStr (if instanceof_Error error
                                     then message_of E error
                                     else "Connection failed"))])).

(** *** The operations of the client, as data

    One constructor per method of [FigmaClient] that goes through
    [request]; [call] is the method call. *)

Inductive Operation :=
| GetFile (fileKey : string) (options : option GetFileOptions.t)
| GetFileNodes (fileKey : string) (ids : list string) (options : option GetFileNodesOptions.t)
| GetFileMeta (fileKey : string)
| GetImages (fileKey : string) (ids : list string) (options : option GetImagesOptions.t)
| GetImageFills (fileKey : string)
| GetFileVersions (fileKey : string) (options : option PaginationOptions.t)
| GetComments (fileKey : string) (options : option GetCommentsOptions.t)
| PostComment (fileKey message : string) (options : option PostCommentOptions.t)
| DeleteComment (fileKey commentId : string)
| GetCommentReactions (fileKey commentId : string) (options : option PaginationOptions.t)
| PostCommentReaction (fileKey commentId emoji : string)
| DeleteCommentReaction (fileKey commentId emoji : string)
| GetMe
| GetTeamProjects (teamId : string)
| GetProjectFiles (projectId : string) (options : option GetProjectFilesOptions.t)
| GetTeamComponents (teamId : string) (options : option PaginationOptions.t)
| GetFileComponents (fileKey : string)
| GetComponent (componentKey : string)
| GetTeamComponentSets (teamId : string) (options : option PaginationOptions.t)
| GetFileComponentSets (fileKey : string)
| GetComponentSet (componentSetKey : string)
| GetTeamStyles (teamId : string) (options : option PaginationOptions.t)
| GetFileStyles (fileKey : string)
| GetStyle (styleKey : string)
| GetWebhooks (options : option GetWebhooksOptions.t)
| CreateWebhook (input : JsValue)
| GetWebhook (webhookId : string)
| UpdateWebhook (webhookId : string) (input : JsValue)
| DeleteWebhook (webhookId : string)
| GetWebhookRequests (webhookId : string)
| GetLocalVariables (fileKey : string)
| GetPublishedVariables (fileKey : string)
| PostVariables (fileKey : string) (payload : JsValue)
| GetDevResources (fileKey : string) (options : option GetDevResourcesOptions.t)
| CreateDevResources (resources : list JsValue)
| UpdateDevResources (resources : list JsValue)
| DeleteDevResource (fileKey devResourceId : string)
| GetActivityLogs (options : option GetActivityLogsOptions.t)
| GetPayments (options : option GetPaymentsOptions.t)
| GetComponentActions (fileKey : string) (options : option GetAnalyticsOptions.t)
| GetComponentUsages (fileKey : string) (options : option GetAnalyticsOptions.t)
| GetStyleActions (fileKey : string) (options : option GetAnalyticsOptions.t)
| GetStyleUsages (fileKey : string) (options : option GetAnalyticsOptions.t).

Definition call (this : FigmaClientImpl) (op : Operation) : Client JsValue :=
  match op with
  | GetFile k o => getFile this k o
  | GetFileNodes k ids o => getFileNodes this k ids o
  | GetFileMeta k => getFileMeta this k
  | GetImages k ids o => getImages this k ids o
  | GetImageFills k => getImageFills this k
  | GetFileVersions k o => getFileVersions this k o
  | GetComments k o => getComments this k o
  | PostComment k m o => postComment this k m o
  | DeleteComment k c => deleteComment this k c
  | GetCommentReactions k c o => getCommentReactions this k c o
  | PostCommentReaction k c e => postCommentReaction this k c e
  | DeleteCommentReaction k c e => deleteCommentReaction this k c e
  | GetMe => getMe this
  | GetTeamProjects t => getTeamProjects this t
  | GetProjectFiles p o => getProjectFiles this p o
  | GetTeamComponents t o => getTeamComponents this t o
  | GetFileComponents k => getFileComponents this k
  | GetComponent k => getComponent this k
  | GetTeamComponentSets t o => getTeamComponentSets this t o
  | GetFileComponentSets k => getFileComponentSets this k
  | GetComponentSet k => getComponentSet this k
  | GetTeamStyles t o => getTeamStyles this t o
  | GetFileStyles k => getFileStyles this k
  | GetStyle k => getStyle this k
  | GetWebhooks o => getWebhooks this o
  | CreateWebhook i => createWebhook this i
  | GetWebhook w => getWebhook this w
  | UpdateWebhook w i => updateWebhook this w i
  | DeleteWebhook w => deleteWebhook this w
  | GetWebhookRequests w => getWebhookRequests this w
  | GetLocalVariables k => getLocalVariables this k
  | GetPublishedVariables k => getPublishedVariables this k
  | PostVariables k p => postVariables this k p
  | GetDevResources k o => getDevResources this k o
  | CreateDevResources r => createDevResources this r
  | UpdateDevResources r => updateDevResources this r
  | DeleteDevResource k d => deleteDevResource this k d
  | GetActivityLogs o => getActivityLogs this o
  | GetPayments o => getPayments this o
  | GetComponentActions k o => getComponentActions this k o
  | GetComponentUsages k o => getComponentUsages this k o
  | GetStyleActions k o => getStyleActions this k o
  | GetStyleUsages k o => getStyleUsages this k o
  end.

(** The methods declared [Promise<void>]: they await [request] and return
    nothing. *)
Definition returns_void (op : Operation) : bool :=
  match op with
  | DeleteComment _ _ | PostCommentReaction _ _ _ | DeleteCommentReaction _ _ _
  | DeleteWebhook _ | DeleteDevResource _ _ => true
  | _ => false
  end.

(** *** The interface [FigmaClient]

    The tool handlers are written against the interface; [createFigmaClient]
    is its one implementation. *)

Record FigmaClient := {
  invoke : Operation -> Client JsValue;
  test_connection : Client JsValue;
}.

Definition createFigmaClient (E : ErrorsTs) (creds : TenantCredentials) : FigmaClient :=
  let impl := FigmaClientImpl.constructor creds in
  {| invoke := call impl; test_connection := testConnection E impl |}.

(** ** The tool envelope ([src/utils/formatters.ts]) *)

(** A content block as it is at run time: [text] is [None] when the
    property holds [undefined]. *)
Record ContentBlock := {
  type : string;
  text : option string;
}.

Record ToolResponse := {
  content : list ContentBlock;
  isError : option bool;
}.

Definition formatResponse (data : JsValue) : ToolResponse :=
  {| content := [{| type := "text"; text := JSON.stringify2 data |}];
     isError := None |}.

Definition formatError (E : ErrorsTs) (error : Thrown) : ToolResponse :=
  let errorInfo := formatErrorForLogging E error in
  let message :=
    match error with
    | ThrownValue v => "Error: " ++ to_display v
    | JsError _ m => "Error: " ++ m
    | _ => "Error: " ++ class_message E error
           ++ (if retryable E error then " (retryable)" else "")
    end in
  {| content :=
       [{| type := "text";
           text := JSON.stringify2
                     (JObj [("error", JStr message); ("details", errorInfo)]) |}];
     isError := Some true |}.

(** [formatSuccess(message, data?)]; a left-out [data] is [JUndefined]. *)
Definition formatSuccess (message : string) (data : JsValue) : ToolResponse :=
  let result := [("success", JBool true); ("message", JStr message)] in
  let result := match data with
                | JUndefined => result
                | _ => assoc_set "data" data result
                end in
  {| content := [{| type := "text"; text := JSON.stringify2 (JObj result) |}];
     isError := None |}.

(** The envelope [{content: [{type: 'text', text: string}], isError?}]. *)
Definition conforms (r : ToolResponse) : Prop :=
  exists t : string, content r = [{| type := "text"; text := Some t |}].

Definition success_envelope (r : ToolResponse) : Prop :=
  conforms r /\ isError r = None.

Definition failure_envelope (r : ToolResponse) : Prop :=
  conforms r /\ isError r = Some true.

(** ** The tool handlers ([src/tools/*.ts], [src/index.ts]) *)

(** A tool call: the name of the tool with its validated arguments. *)
Inductive ToolCall :=
| figma_get_file (file_key : string) (version : option string)
    (depth : option JsNumber) (branch_data : option bool)
| figma_get_file_nodes (file_key : string) (ids : list string)
    (version : option string) (depth : option JsNumber)
| figma_get_file_meta (file_key : string)
| figma_get_images (file_key : string) (ids : list string) (format : string)
    (scale : JsNumber) (svg_include_id svg_simplify_stroke contents_only
    use_absolute_bounds : option bool)
| figma_get_image_fills (file_key : string)
| figma_get_comments (file_key : string) (as_md : option bool)
| figma_post_comment (file_key message : string) (comment_id node_id : option string)
    (x y : option JsNumber)
| figma_delete_comment (file_key comment_id : string)
| figma_get_comment_reactions (file_key comment_id : string) (cursor : option string)
| figma_post_comment_reaction (file_key comment_id emoji : string)
| figma_delete_comment_reaction (file_key comment_id emoji : string)
| figma_get_team_projects (team_id : string)
| figma_get_project_files (project_id : string) (branch_data : option bool)
| figma_get_file_versions (file_key : string) (page_size : option JsNumber)
    (cursor : option string)
| figma_get_team_components (team_id : string) (page_size : option JsNumber)
    (cursor : option string)
| figma_get_file_components (file_key : string)
| figma_get_component (component_key : string)
| figma_get_team_component_sets (team_id : string) (page_size : option JsNumber)
    (cursor : option string)
| figma_get_file_component_sets (file_key : string)
| figma_get_component_set (component_set_key : string)
| figma_get_team_styles (team_id : string) (page_size : option JsNumber)
    (cursor : option string)
| figma_get_file_styles (file_key : string)
| figma_get_style (style_key : string)
| figma_get_webhooks (team_id : option string)
| figma_create_webhook (event_type team_id endpoint passcode : string)
    (status description : option string)
| figma_get_webhook (webhook_id : string)
| figma_update_webhook (webhook_id : string)
    (event_type endpoint passcode status description : option string)
| figma_delete_webhook (webhook_id : string)
| figma_get_webhook_requests (webhook_id : string)
| figma_get_local_variables (file_key : string)
| figma_get_published_variables (file_key : string)
| figma_modify_variables (file_key : string)
    (variable_collections variable_modes variables variable_mode_values : option JsValue)
| figma_get_dev_resources (file_key : string) (node_ids : option (list string))
| figma_create_dev_resources (resources : list JsValue)
| figma_update_dev_resources (resources : list JsValue)
| figma_delete_dev_resource (file_key dev_resource_id : string)
| figma_get_activity_logs (event_type : option string) (limit : option JsNumber)
    (order : option string)
| figma_get_payments (user_ids : option (list string))
| figma_get_component_actions (file_key : string) (cursor : option string)
| figma_get_component_usages (file_key : string) (cursor : option string)
| figma_get_style_actions (file_key : string) (cursor : option string)
| figma_get_style_usages (file_key : string) (cursor : option string)
| figma_get_me
| figma_test_connection.

Definition js_opt_number (o : option JsNumber) : JsValue :=
  match o with Some n => JNum n | None => JUndefined end.

Definition js_opt (o : option JsValue) : JsValue := default JUndefined o.

Section Handlers.

Variable E : ErrorsTs.
Variable client : FigmaClient.

(** [try { const result = await m; return formatResponse(result); }
     catch (error) { return formatError(error); }] *)
Definition respond (m : Client JsValue) : Client ToolResponse :=
  try_catch (result ← m; mret (formatResponse result))
            (fun error => mret (formatError E error)).

(** [try { await m; return formatSuccess(message); }
     catch (error) { return formatError(error); }] *)
Definition succeed (m : Client JsValue) (message : string) : Client ToolResponse :=
  try_catch (m;; mret (formatSuccess message JUndefined))
            (fun error => mret (formatError E error)).

Definition pagination (page_size : option JsNumber) (cursor : option string) :=
  Some {| PaginationOptions.page_size := page_size;
          PaginationOptions.cursor := cursor |}.

Definition analytics_options (cursor : option string) :=
  Some {| GetAnalyticsOptions.cursor := cursor |}.

Definition handler (t : ToolCall) : Client ToolResponse :=
  match t with
  | figma_get_file file_key version depth branch_data =>
      respond (invoke client (GetFile file_key
        (Some {| GetFileOptions.version := version; GetFileOptions.ids := None;
                 GetFileOptions.depth := depth; GetFileOptions.geometry := None;
                 GetFileOptions.plugin_data := None;
                 GetFileOptions.branch_data := branch_data |})))
  | figma_get_file_nodes file_key ids version depth =>
      respond (invoke client (GetFileNodes file_key ids
        (Some {| GetFileNodesOptions.version := version;
                 GetFileNodesOptions.depth := depth;
                 GetFileNodesOptions.geometry := None;
                 GetFileNodesOptions.plugin_data := None |})))
  | figma_get_file_meta file_key =>
      respond (invoke client (GetFileMeta file_key))
  | figma_get_images file_key ids format scale svg_include_id svg_simplify_stroke
      contents_only use_absolute_bounds =>
      respond (invoke client (GetImages file_key ids
        (Some {| GetImagesOptions.scale := Some scale;
                 GetImagesOptions.format := Some format;
                 GetImagesOptions.svg_include_id := svg_include_id;
                 GetImagesOptions.svg_include_node_id := None;
                 GetImagesOptions.svg_simplify_stroke := svg_simplify_stroke;
                 GetImagesOptions.contents_only := contents_only;
                 GetImagesOptions.use_absolute_bounds := use_absolute_bounds;
                 GetImagesOptions.version := None |})))
  | figma_get_image_fills file_key =>
      respond (invoke client (GetImageFills file_key))
  | figma_get_comments file_key as_md =>
      respond (invoke client (GetComments file_key
        (Some {| GetCommentsOptions.as_md := as_md |})))
  | figma_post_comment file_key message comment_id node_id x y =>
      let client_meta :=
        if present node_id || bool_decide (is_Some x) || bool_decide (is_Some y)
        then Some (JObj [("node_id", js_opt_string node_id);
                         ("x", js_opt_number x); ("y", js_opt_number y)])
        else None in
      respond (invoke client (PostComment file_key message
        (Some {| PostCommentOptions.comment_id := comment_id;
                 PostCommentOptions.client_meta := client_meta |})))
  | figma_delete_comment file_key comment_id =>
      succeed (invoke client (DeleteComment file_key comment_id))
              ("Comment " ++ comment_id ++ " deleted successfully")
  | figma_get_comment_reactions file_key comment_id cursor =>
      respond (invoke client (GetCommentReactions file_key comment_id
                                (pagination None cursor)))
  | figma_post_comment_reaction file_key comment_id emoji =>
      succeed (invoke client (PostCommentReaction file_key comment_id emoji))
              ("Reaction " ++ emoji ++ " added to comment " ++ comment_id)
  | figma_delete_comment_reaction file_key comment_id emoji =>
      succeed (invoke client (DeleteCommentReaction file_key comment_id emoji))
              ("Reaction " ++ emoji ++ " removed from comment " ++ comment_id)
  | figma_get_team_projects team_id =>
      respond (invoke client (GetTeamProjects team_id))
  | figma_get_project_files project_id branch_data =>
      respond (invoke client (GetProjectFiles project_id
        (Some {| GetProjectFilesOptions.branch_data := branch_data |})))
  | figma_get_file_versions file_key page_size cursor =>
      respond (invoke client (GetFileVersions file_key (pagination page_size cursor)))
  | figma_get_team_components team_id page_size cursor =>
      respond (invoke client (GetTeamComponents team_id (pagination page_size cursor)))
  | figma_get_file_components file_key =>
      respond (invoke client (GetFileComponents file_key))
  | figma_get_component component_key =>
      respond (invoke client (GetComponent component_key))
  | figma_get_team_component_sets team_id page_size cursor =>
      respond (invoke client (GetTeamComponentSets team_id (pagination page_size cursor)))
  | figma_get_file_component_sets file_key =>
      respond (invoke client (GetFileComponentSets file_key))
  | figma_get_component_set component_set_key =>
      respond (invoke client (GetComponentSet component_set_key))
  | figma_get_team_styles team_id page_size cursor =>
      respond (invoke client (GetTeamStyles team_id (pagination page_size cursor)))
  | figma_get_file_styles file_key =>
      respond (invoke client (GetFileStyles file_key))
  | figma_get_style style_key =>
      respond (invoke client (GetStyle style_key))
  | figma_get_webhooks team_id =>
      respond (invoke client (GetWebhooks
        (Some {| GetWebhooksOptions.team_id := team_id |})))
  | figma_create_webhook event_type team_id endpoint passcode status description =>
      respond (invoke client (CreateWebhook
        (JObj [("event_type", JStr event_type); ("team_id", JStr team_id);
               ("endpoint", JStr endpoint); ("passcode", JStr passcode);
               ("status", js_opt_string status);
               ("description", js_opt_string description)])))
  | figma_get_webhook webhook_id =>
      respond (invoke client (GetWebhook webhook_id))
  | figma_update_webhook webhook_id event_type endpoint passcode status description =>
      respond (invoke client (UpdateWebhook webhook_id
        (JObj [("event_type", js_opt_string event_type);
               ("endpoint", js_opt_string endpoint);
               ("passcode", js_opt_string passcode);
               ("status", js_opt_string status);
               ("description", js_opt_string description)])))
  | figma_delete_webhook webhook_id =>
      succeed (invoke client (DeleteWebhook webhook_id))
              ("Webhook " ++ webhook_id ++ " deleted successfully")
  | figma_get_webhook_requests webhook_id =>
      respond (invoke client (GetWebhookRequests webhook_id))
  | figma_get_local_variables file_key =>
      respond (invoke client (GetLocalVariables file_key))
  | figma_get_published_variables file_key =>
      respond (invoke client (GetPublishedVariables file_key))
  | figma_modify_variables file_key variable_collections variable_modes variables
      variable_mode_values =>
      respond (invoke client (PostVariables file_key
        (JObj [("variableCollections", js_opt variable_collections);
               ("variableModes", js_opt variable_modes);
               ("variables", js_opt variables);
               ("variableModeValues", js_opt variable_mode_values)])))
  | figma_get_dev_resources file_key node_ids =>
      respond (invoke client (GetDevResources file_key
        (Some {| GetDevResourcesOptions.node_ids := node_ids |})))
  | figma_create_dev_resources resources =>
      respond (invoke client (CreateDevResources resources))
  | figma_update_dev_resources resources =>
      respond (invoke client (UpdateDevResources resources))
  | figma_delete_dev_resource file_key dev_resource_id =>
      succeed (invoke client (DeleteDevResource file_key dev_resource_id))
              ("Dev resource " ++ dev_resource_id ++ " deleted successfully")
  | figma_get_activity_logs event_type limit order =>
      respond (invoke client (GetActivityLogs
        (Some {| GetActivityLogsOptions.event_type := event_type;
                 GetActivityLogsOptions.limit := limit;
                 GetActivityLogsOptions.order := order |})))
  | figma_get_payments user_ids =>
      respond (invoke client (GetPayments
        (Some {| GetPaymentsOptions.user_ids := user_ids |})))
  | figma_get_component_actions file_key cursor =>
      respond (invoke client (GetComponentActions file_key (analytics_options cursor)))
  | figma_get_component_usages file_key cursor =>
      respond (invoke client (GetComponentUsages file_key (analytics_options cursor)))
  | figma_get_style_actions file_key cursor =>
      respond (invoke client (GetStyleActions file_key (analytics_options cursor)))
  | figma_get_style_usages file_key cursor =>
      respond (invoke client (GetStyleUsages file_key (analytics_options cursor)))
  | figma_get_me =>
      respond (invoke client GetMe)
  | figma_test_connection =>
      try_catch
        (result ← test_connection client;
         mret {| content := [{| type := "text"; text := JSON.stringify2 result |}];
                 isError := None |})
        (fun error =>
           mret {| content :=
                     [{| type := "text";
                         text := Some ("Connection failed: "
                                       ++ (if instanceof_Error error
                                           then message_of E error
                                           else "Unknown error")) |}];
                   isError := Some true |})
  end.

End Handlers.

(** ** The server entry ([src/index.ts]) *)

Definition SERVER_NAME : string := "primrose-mcp-figma".
Definition SERVER_VERSION : string := "1.0.0".

(** An [McpServer] with its registered tools: the handler that a call of a
    tool runs. *)
Record McpServer := {
  server_name : string;
  server_version : string;
  tool : ToolCall -> Client ToolResponse;
}.

Definition createStatelessServer (E : ErrorsTs) (credentials : TenantCredentials)
  : McpServer :=
  let client := createFigmaClient E credentials in
  {| server_name := SERVER_NAME;
     server_version := SERVER_VERSION;
     tool := handler E client |}.

(** [new Response(body, { status, headers })]; the status defaults to 200. *)
Definition new_Response (body : string) (status : Z) (headers : Headers) : Response :=
  {| status := status; resp_headers := headers; body := body |}.

Definition json_headers : Headers := {[ "content-type" := "application/json" ]}.

Definition tool_names : list string :=
  [
    "figma_get_file"; "figma_get_file_nodes"; "figma_get_file_meta";
    "figma_get_images"; "figma_get_image_fills"; "figma_get_comments";
    "figma_post_comment"; "figma_delete_comment"; "figma_get_comment_reactions";
    "figma_post_comment_reaction"; "figma_delete_comment_reaction";
    "figma_get_team_projects"; "figma_get_project_files"; "figma_get_file_versions";
    "figma_get_team_components"; "figma_get_file_components"; "figma_get_component";
    "figma_get_team_component_sets"; "figma_get_file_component_sets";
    "figma_get_component_set"; "figma_get_team_styles"; "figma_get_file_styles";
    "figma_get_style"; "figma_get_webhooks"; "figma_create_webhook";
    "figma_get_webhook"; "figma_update_webhook"; "figma_delete_webhook";
    "figma_get_webhook_requests"; "figma_get_local_variables";
    "figma_get_published_variables"; "figma_modify_variables";
    "figma_get_dev_resources"; "figma_create_dev_resources";
    "figma_update_dev_resources"; "figma_delete_dev_resource";
    "figma_get_activity_logs"; "figma_get_payments"; "figma_get_component_actions";
    "figma_get_component_usages"; "figma_get_style_actions";
    "figma_get_style_usages"; "figma_get_me"; "figma_test_connection"
  ].

Definition unauthorized_body (E : ErrorsTs) (error : Thrown) : JsValue :=
  JObj [("error", JStr "Unauthorized");
        ("message", JStr (if instanceof_Error error then message_of E error
                          else "Invalid credentials"));
        ("required_headers", JArr [JStr "X-Figma-Token"])].

Definition info_body : JsValue :=
  JObj [("name", JStr SERVER_NAME);
        ("version", JStr SERVER_VERSION);
        ("description",
         JStr "Multi-tenant Figma MCP Server - Access the full Figma REST API");
        ("endpoints",
         JObj [("mcp", JStr "/mcp (POST) - Streamable HTTP MCP endpoint");
               ("health", JStr "/health - Health check")]);
        ("authentication",
         JObj [("description",
                JStr "Pass Figma personal access token via request header");
               ("required_headers",
                JObj [("X-Figma-Token", JStr "Your Figma personal access token")]);
               ("optional_headers",
                JObj [("X-Figma-Base-URL",
                       JStr "Override the default Figma API base URL")])]);
        ("tools", JArr (map JStr tool_names))].

Section Worker.

Variable E : ErrorsTs.

(** [createMcpHandler(server)] of the MCP framework, applied to the
    request: it may run tool handlers, and so issue upstream calls. *)
Variable createMcpHandler : McpServer -> Request -> Client Response.

(** The [fetch] handler of the Worker. *)
Definition worker_fetch (request : Request) : Client Response :=
  if String.eqb (pathname request) "/health" then
    mret (new_Response
            (default "" (JSON.stringify
               (JObj [("status", JStr "ok"); ("server", JStr SERVER_NAME)])))
            200 json_headers)
  else if String.eqb (pathname request) "/mcp" && String.eqb (method request) "POST" then
    let credentials := parseTenantCredentials request in
    match validateCredentials credentials with
    | Threw error =>
        mret (new_Response
                (default "" (JSON.stringify (unauthorized_body E error)))
                401 json_headers)
    | Returned _ =>
        let server := createStatelessServer E credentials in
        createMcpHandler server request
    end
  else if String.eqb (pathname request) "/sse" then
    mret (new_Response
            "SSE endpoint requires Durable Objects. Enable in wrangler.jsonc."
            501 {[ "content-type" := "text/plain;charset=UTF-8" ]})
  else
    mret (new_Response (default "" (JSON.stringify info_body)) 200 json_headers).

End Worker.

(** ** Environment values ([src/types/env.ts]) *)

(** What [env[key]] holds at run time: a string (a variable of
    [wrangler.jsonc]), an object (a KV, Durable Object or AI binding), or
    nothing. *)
Inductive EnvValue :=
| EnvString (value : string)
| EnvBinding
| EnvMissing.

(** [keyof Env]. *)
Inductive EnvKey :=
| CHARACTER_LIMIT | DEFAULT_PAGE_SIZE | MAX_PAGE_SIZE
| CACHE_KV | MCP_SESSIONS | AI.

Definition Env : Type := EnvKey -> EnvValue.

(** [Number.isNaN]. *)
Definition isNaN (n : JsNumber) : bool :=
  match n with NaN => true | Dec _ _ => false end.

Definition getEnvNumber (env : Env) (key : EnvKey) (defaultValue : JsNumber)
  : JsNumber :=
  let value := env key in
  match value with
  | EnvString value =>
      let parsed := parseInt10 value in
      if isNaN parsed then defaultValue else parsed
  | _ => defaultValue
  end.

Definition getCharacterLimit (env : Env) : JsNumber :=
  getEnvNumber env CHARACTER_LIMIT (of_Z 50000).

Definition getDefaultPageSize (env : Env) : JsNumber :=
  getEnvNumber env DEFAULT_PAGE_SIZE (of_Z 20).

Definition getMaxPageSize (env : Env) : JsNumber :=
  getEnvNumber env MAX_PAGE_SIZE (of_Z 100).

(** ** [truncate] ([src/utils/formatters.ts])

    Here a string is its sequence of code units, one character per code
    unit, and a length is an integer. *)

(** [str.slice(start, end)]: a negative index counts from the end, and both
    are clamped to the string. *)
Definition slice (str : string) (start end_ : Z) : string :=
  let len := Z.of_nat (String.length str) in
  let from := if start <? 0 then Z.max (len + start) 0 else Z.min start len in
  let to := if end_ <? 0 then Z.max (len + end_) 0 else Z.min end_ len in
  JsNum.take (Z.to_nat (Z.max (to - from) 0)) (JsNum.drop (Z.to_nat from) str).

Definition truncate (str : string) (maxLength : Z) : string :=
  if Z.of_nat (String.length str) <=? maxLength then str
  else slice str 0 (maxLength - 3) ++ "...".

(** ** The names the tools are registered under ([server.tool(name, ...)]) *)

Definition tool_name (t : ToolCall) : string :=
  match t with
  | figma_get_file _ _ _ _ => "figma_get_file"
  | figma_get_file_nodes _ _ _ _ => "figma_get_file_nodes"
  | figma_get_file_meta _ => "figma_get_file_meta"
  | figma_get_images _ _ _ _ _ _ _ _ => "figma_get_images"
  | figma_get_image_fills _ => "figma_get_image_fills"
  | figma_get_comments _ _ => "figma_get_comments"
  | figma_post_comment _ _ _ _ _ _ => "figma_post_comment"
  | figma_delete_comment _ _ => "figma_delete_comment"
  | figma_get_comment_reactions _ _ _ => "figma_get_comment_reactions"
  | figma_post_comment_reaction _ _ _ => "figma_post_comment_reaction"
  | figma_delete_comment_reaction _ _ _ => "figma_delete_comment_reaction"
  | figma_get_team_projects _ => "figma_get_team_projects"
  | figma_get_project_files _ _ => "figma_get_project_files"
  | figma_get_file_versions _ _ _ => "figma_get_file_versions"
  | figma_get_team_components _ _ _ => "figma_get_team_components"
  | figma_get_file_components _ => "figma_get_file_components"
  | figma_get_component _ => "figma_get_component"
  | figma_get_team_component_sets _ _ _ => "figma_get_team_component_sets"
  | figma_get_file_component_sets _ => "figma_get_file_component_sets"
  | figma_get_component_set _ => "figma_get_component_set"
  | figma_get_team_styles _ _ _ => "figma_get_team_styles"
  | figma_get_file_styles _ => "figma_get_file_styles"
  | figma_get_style _ => "figma_get_style"
  | figma_get_webhooks _ => "figma_get_webhooks"
  | figma_create_webhook _ _ _ _ _ _ => "figma_create_webhook"
  | figma_get_webhook _ => "figma_get_webhook"
  | figma_update_webhook _ _ _ _ _ _ => "figma_update_webhook"
  | figma_delete_webhook _ => "figma_delete_webhook"
  | figma_get_webhook_requests _ => "figma_get_webhook_requests"
  | figma_get_local_variables _ => "figma_get_local_variables"
  | figma_get_published_variables _ => "figma_get_published_variables"
  | figma_modify_variables _ _ _ _ _ => "figma_modify_variables"
  | figma_get_dev_resources _ _ => "figma_get_dev_resources"
  | figma_create_dev_resources _ => "figma_create_dev_resources"
  | figma_update_dev_resources _ => "figma_update_dev_resources"
  | figma_delete_dev_resource _ _ => "figma_delete_dev_resource"
  | figma_get_activity_logs _ _ _ => "figma_get_activity_logs"
  | figma_get_payments _ => "figma_get_payments"
  | figma_get_component_actions _ _ => "figma_get_component_actions"
  | figma_get_component_usages _ _ => "figma_get_component_usages"
  | figma_get_style_actions _ _ => "figma_get_style_actions"
  | figma_get_style_usages _ _ => "figma_get_style_usages"
  | figma_get_me => "figma_get_me"
  | figma_test_connection => "figma_test_connection"
  end.

(** ** Vocabulary of the statements *)

(** The client holds a usable access token. *)
Definition has_token (this : FigmaClientImpl) : Prop :=
  present (accessToken (credentials this)) = true.

(** The [fetch] call that [request] issues for an endpoint and its options,
    when the client holds a token. *)
Definition issued (this : FigmaClientImpl) (endpoint : string)
    (options : RequestInit) : FetchCall :=
  {| url := FigmaClientImpl.baseUrl this ++ endpoint;
     init_method := opt_method options;
     init_body := opt_body options;
     init_headers :=
       default ∅ (opt_headers options)
       ∪ <["X-Figma-Token" := default "" (accessToken (credentials this))]>
           (<["Content-Type" := "application/json"]> ∅) |}.

(** A method declared [Promise<void>] drops the value of [request]. *)
Definition discard (void : bool) (c : Completion JsValue) : Completion JsValue :=
  match c with
  | Returned v => Returned (if void then JUndefined else v)
  | Threw e => Threw e
  end.

(** The spec's reading of the message fields: the value of the first of
    [keys] that the object has. *)
Fixpoint first_present (v : JsValue) (keys : list string) : option JsValue :=
  match keys with
  | [] => None
  | k :: rest =>
      match v with
      | JObj props =>
          match assoc k props with
          | Some x => Some x
          | None => first_present v rest
          end
      | _ => None
      end
  end.

(** The value of the first of [keys] whose value in [v] is truthy. *)
Fixpoint first_truthy (v : JsValue) (keys : list string) : option JsValue :=
  match keys with
  | [] => None
  | k :: rest =>
      match Js.get v k with
      | Some x => if Js.truthy x then Some x else first_truthy v rest
      | None => None
      end
  end.

Definition message_keys : list string := ["message"; "err"; "error"].

(** ["API error: {status}"]. *)
Definition fallback_message (status : Z) : JsValue :=
  JStr ("API error: " ++ JsNum.to_string (of_Z status)).

(** A status that [request] gives no branch of its own. *)
Definition unclassified (status : Z) : Prop :=
  status <> 429 /\ status <> 401 /\ status <> 403 /\ status <> 404.

(** ** Fixtures: a client with a token and runtimes that answer every call
    with one response *)

Definition demo_credentials : TenantCredentials :=
  {| TenantCredentials.accessToken := Some "figd_demo";
     TenantCredentials.baseUrl := None |}.

Definition demo_client : FigmaClientImpl := FigmaClientImpl.constructor demo_credentials.

Definition answering (r : Response) : Runtime :=
  {| net := fun _ => Responded r;
     syntax_error_message := fun _ => "Unexpected token in JSON" |}.

Definition response (status : Z) (headers : Headers) (body : string) : Response :=
  {| status := status; resp_headers := headers; body := body |}.

(** The options [{depth: 2}]. *)
Definition depth_2 : GetFileOptions.t :=
  {| GetFileOptions.version := None; GetFileOptions.ids := None;
     GetFileOptions.depth := Some (of_Z 2); GetFileOptions.geometry := None;
     GetFileOptions.plugin_data := None; GetFileOptions.branch_data := None |}.

(** An instance of the missing error module, for the examples: the message
    is the one given to the constructor, 429 and 5xx are retryable, the
    details hold the kind of the error. *)
Definition demo_errors : ErrorsTs :=
  {| class_message := fun e =>
       match e with
       | JsError _ m | AuthenticationError m | ForbiddenError m
       | RateLimitError m _ => m
       | NotFoundError resource path => resource ++ " not found: " ++ path
       | FigmaApiError m _ => to_display m
       | ThrownValue v => to_display v
       end;
     retryable := fun e =>
       match e with
       | RateLimitError _ _ => true
       | FigmaApiError _ st => 500 <=? st
       | _ => false
       end;
     formatErrorForLogging := fun e =>
       JObj [("kind", JNum (of_Z (match kind e with
                                  | KBuiltin => 0 | KAuthentication => 401
                                  | KForbidden => 403 | KNotFound => 404
                                  | KRateLimit => 429 | KApi => 500
                                  | KValue => -1
                                  end)))] |}.

(** An MCP handler that calls the [figma_get_me] tool of the server and
    answers with the text of its envelope. *)
Definition demo_mcp_handler (server : McpServer) (request : Request) : Client Response :=
  envelope ← tool server figma_get_me;
  mret (new_Response
          (default "" (head (content envelope) ≫= text)) 200 json_headers).

Definition demo_request (headers : Headers) : Request :=
  {| pathname := "/mcp"; method := "POST"; req_headers := headers |}.

(** A runtime on which every call fails before a response comes. *)
Definition unreachable : Runtime :=
  {| net := fun _ => Rejected "TypeError" "fetch failed";
     syntax_error_message := fun _ => "Unexpected token in JSON" |}.

(** One call of every tool, in the order of registration. *)
Definition sample_calls : list ToolCall :=
  [ figma_get_file "k" None None None; figma_get_file_nodes "k" [] None None;
    figma_get_file_meta "k";
    figma_get_images "k" [] "png" (of_Z 1) None None None None;
    figma_get_image_fills "k"; figma_get_comments "k" None;
    figma_post_comment "k" "m" None None None None; figma_delete_comment "k" "c";
    figma_get_comment_reactions "k" "c" None;
    figma_post_comment_reaction "k" "c" "e";
    figma_delete_comment_reaction "k" "c" "e"; figma_get_team_projects "t";
    figma_get_project_files "p" None; figma_get_file_versions "k" None None;
    figma_get_team_components "t" None None; figma_get_file_components "k";
    figma_get_component "c"; figma_get_team_component_sets "t" None None;
    figma_get_file_component_sets "k"; figma_get_component_set "c";
    figma_get_team_styles "t" None None; figma_get_file_styles "k";
    figma_get_style "s"; figma_get_webhooks None;
    figma_create_webhook "e" "t" "u" "p" None None; figma_get_webhook "w";
    figma_update_webhook "w" None None None None None; figma_delete_webhook "w";
    figma_get_webhook_requests "w"; figma_get_local_variables "k";
    figma_get_published_variables "k";
    figma_modify_variables "k" None None None None;
    figma_get_dev_resources "k" None; figma_create_dev_resources [];
    figma_update_dev_resources []; figma_delete_dev_resource "k" "d";
    figma_get_activity_logs None None None; figma_get_payments None;
    figma_get_component_actions "k" None; figma_get_component_usages "k" None;
    figma_get_style_actions "k" None; figma_get_style_usages "k" None;
    figma_get_me; figma_test_connection ].


(** * Properties *)

Example parseInt10_120 : parseInt10 "120" = Dec 120 0.
Proof. reflexivity. Qed.
Example parseInt10_prefix : parseInt10 "  30s" = Dec 30 0.
Proof. reflexivity. Qed.
Example parseInt10_date : parseInt10 "Wed, 21 Oct 2015 07:28:00 GMT" = NaN.
Proof. reflexivity. Qed.
Example to_string_2 : JsNum.to_string (of_Z 2) = "2".
Proof. reflexivity. Qed.
Example to_string_frac : JsNum.to_string (Dec (-125) (-2)) = "-1.25".
Proof. vm_compute. reflexivity. Qed.
Example to_string_small : JsNum.to_string (Dec 5 (-7)) = "5e-7".
Proof. vm_compute. reflexivity. Qed.
Example to_string_500 : JsNum.to_string (of_Z 500) = "500".
Proof. vm_compute. reflexivity. Qed.

Example parse_object :
  JSON.parse (dq "{'status': 400, 'err': 'Bad A', 'l': [1.5e3, true, null, {}]}")
  = Some (JObj [("status", JNum (Dec 400 0)); ("err", JStr "Bad A");
                ("l", JArr [JNum (Dec 15 2); JBool true; JNull; JObj []])]).
Proof. vm_compute. reflexivity. Qed.
Example parse_garbage : JSON.parse "<html>Bad Gateway</html>" = None.
Proof. vm_compute. reflexivity. Qed.
Example parse_empty : JSON.parse "" = None.
Proof. vm_compute. reflexivity. Qed.
Example parse_trailing : JSON.parse "[1,]" = None.
Proof. vm_compute. reflexivity. Qed.
Example parse_leading_zero : JSON.parse "01" = None.
Proof. vm_compute. reflexivity. Qed.
Example stringify2_object :
  JSON.stringify2 (JObj [("a", JNum (Dec 1 0)); ("u", JUndefined);
                        ("l", JArr [JUndefined; JStr "x"]); ("e", JArr [])])
  = Some (dq "{
  'a': 1,
  'l': [
    null,
    'x'
  ],
  'e': []
}").
Proof. vm_compute. reflexivity. Qed.
Example stringify_undefined : JSON.stringify JUndefined = None.
Proof. reflexivity. Qed.
Example stringify_compact :
  JSON.stringify (JObj [("emoji", JStr ":+1:"); ("n", JArr [JNull; JObj []])])
  = Some (dq "{'emoji':':+1:','n':[null,{}]}").
Proof. vm_compute. reflexivity. Qed.

(** ** The client monad *)

Ltac unfold_client :=
  unfold mbind, Client_bind, bind, mret, Client_ret, ret, throw, lift, try_catch in *.

(** ** [request] *)

(** Classification reads the response and leaves the log alone. *)
Lemma classify_log endpoint r rt log :
  classify endpoint r rt log = (fst (classify endpoint r rt []), log).
Proof.
  unfold classify, throw, ret, response_json.
  repeat (case_match; try reflexivity).
Qed.

(** With a token, [request] issues exactly the call [issued], once, and
    classifies what comes back. *)
Lemma run_request this endpoint options rt :
  has_token this ->
  run rt (request this endpoint options)
  = match net rt (issued this endpoint options) with
    | Responded r => (fst (classify endpoint r rt []), [issued this endpoint options])
    | Rejected name message =>
        (Threw (JsError name message), [issued this endpoint options])
    end.
Proof.
  unfold has_token, run, request, getAuthHeaders. intros Htok. rewrite Htok. simpl.
  unfold_client. unfold fetch. fold (issued this endpoint options).
  destruct (net rt (issued this endpoint options)) as [r|name message]; [|reflexivity].
  simpl. apply classify_log.
Qed.

(** Without a token, [request] throws before any call is issued. *)
Lemma run_request_no_token this endpoint options rt :
  ~ has_token this ->
  exists m, run rt (request this endpoint options) = (Threw (AuthenticationError m), []).
Proof.
  unfold has_token, run, request, getAuthHeaders. intros Htok.
  destruct (present (accessToken (credentials this))); [congruence|].
  simpl. eexists. reflexivity.
Qed.

(** Every method is one [request]; the five [Promise<void>] methods drop
    its value. *)
Lemma call_request this op :
  exists endpoint options,
    call this op
    = if returns_void op
      then request this endpoint options;; mret JUndefined
      else request this endpoint options.
Proof. destruct op; simpl; eexists; eexists; reflexivity. Qed.

Lemma run_call this op :
  has_token this ->
  exists endpoint c, forall rt,
    run rt (call this op)
    = match net rt c with
      | Responded r => (discard (returns_void op) (fst (classify endpoint r rt [])), [c])
      | Rejected name message => (Threw (JsError name message), [c])
      end.
Proof.
  intros Htok. destruct (call_request this op) as (endpoint & options & Hcall).
  exists endpoint, (issued this endpoint options). intros rt.
  pose proof (run_request this endpoint options rt Htok) as Hrun.
  rewrite Hcall. unfold run in *.
  destruct (returns_void op).
  - unfold_client. rewrite Hrun.
    destruct (net rt _) as [r|name message]; [|reflexivity].
    destruct (fst (classify endpoint r rt [])); reflexivity.
  - rewrite Hrun. destruct (net rt _) as [r|name message]; [|reflexivity].
    destruct (fst (classify endpoint r rt [])); reflexivity.
Qed.

(** Whatever [request] throws is an [Error]: one of the five classes, the
    [SyntaxError] of [response.json()], or the error [fetch] rejects
    with. *)
Lemma request_throws_errors this endpoint options rt log e log' :
  request this endpoint options rt log = (Threw e, log') ->
  instanceof_Error e = true.
Proof.
  unfold request, getAuthHeaders. unfold_client. unfold fetch.
  destruct (present (accessToken (credentials this))); simpl.
  - destruct (net rt _) as [r|name message].
    + unfold classify, response_json. unfold_client.
      repeat case_match; intros [= <- _]; reflexivity.
    + intros [= <- _]. reflexivity.
  - intros [= <- _]. reflexivity.
Qed.

(** *** The branches of the classification *)

Lemma classify_401 endpoint r rt :
  status r = 401 ->
  fst (classify endpoint r rt [])
  = Threw (AuthenticationError
             "Authentication failed. Check your Figma personal access token.").
Proof. intros H. unfold classify. rewrite H. reflexivity. Qed.

Lemma classify_403 endpoint r rt :
  status r = 403 ->
  fst (classify endpoint r rt [])
  = Threw (ForbiddenError
             "Access forbidden. You may not have permission to access this resource.").
Proof. intros H. unfold classify. rewrite H. reflexivity. Qed.

Lemma classify_404 endpoint r rt :
  status r = 404 ->
  fst (classify endpoint r rt []) = Threw (NotFoundError "Resource" endpoint).
Proof. intros H. unfold classify. rewrite H. reflexivity. Qed.

Lemma classify_429 endpoint r rt :
  status r = 429 ->
  fst (classify endpoint r rt [])
  = Threw (RateLimitError "Rate limit exceeded"
             (match headers_get (resp_headers r) "Retry-After" with
              | Some v => if String.eqb v "" then of_Z 60 else parseInt10 v
              | None => of_Z 60
              end)).
Proof.
  intros H. unfold classify. rewrite H. simpl.
  destruct (headers_get (resp_headers r) "Retry-After") as [v|]; simpl; [|reflexivity].
  destruct (String.eqb v ""); reflexivity.
Qed.

Lemma classify_204 endpoint r rt :
  status r = 204 -> fst (classify endpoint r rt []) = Returned JUndefined.
Proof. intros H. unfold classify, ok. rewrite H. reflexivity. Qed.

Lemma unclassified_eqb st :
  unclassified st ->
  (st =? 429) = false /\ (st =? 401) = false /\ (st =? 403) = false
  /\ (st =? 404) = false.
Proof. unfold unclassified. rewrite !Z.eqb_neq. tauto. Qed.

Lemma ok_unclassified st : 200 <= st <= 299 -> unclassified st.
Proof. unfold unclassified. lia. Qed.

Lemma classify_error endpoint r rt :
  unclassified (status r) -> ok r = false ->
  fst (classify endpoint r rt [])
  = Threw (FigmaApiError (error_message_of r) (status r)).
Proof.
  intros Hu Hok. apply unclassified_eqb in Hu as (H1 & H2 & H3 & H4).
  unfold classify. rewrite H1, H2, H3, H4, Hok. reflexivity.
Qed.

Lemma classify_json endpoint r rt v :
  ok r = true -> status r <> 204 -> JSON.parse (body r) = Some v ->
  fst (classify endpoint r rt []) = Returned v.
Proof.
  intros Hok H204 Hparse.
  assert (Hu : unclassified (status r)).
  { apply ok_unclassified. unfold ok in Hok. lia. }
  apply unclassified_eqb in Hu as (H1 & H2 & H3 & H4).
  apply Z.eqb_neq in H204.
  unfold classify, response_json. rewrite H1, H2, H3, H4, Hok, H204, Hparse.
  reflexivity.
Qed.

(** ** Error kinds by status *)

(** C5: for every operation, a response with status 401 raises an
    authentication error, 403 a forbidden error and 404 a not-found error;
    the kind depends on the status alone, whichever operation issued the
    request. *)
Theorem status_error_kind this op :
  has_token this ->
  exists c, forall rt r,
    net rt c = Responded r ->
    (status r = 401 ->
     exists e, run rt (call this op) = (Threw e, [c]) /\ kind e = KAuthentication)
    /\ (status r = 403 ->
        exists e, run rt (call this op) = (Threw e, [c]) /\ kind e = KForbidden)
    /\ (status r = 404 ->
        exists e, run rt (call this op) = (Threw e, [c]) /\ kind e = KNotFound).
Proof.
  intros Htok. destruct (run_call this op Htok) as (endpoint & c & Hrun).
  exists c. intros rt r Hnet. rewrite Hrun, Hnet.
  repeat split; intros Hs.
  - rewrite (classify_401 _ _ _ Hs). eexists; split; reflexivity.
  - rewrite (classify_403 _ _ _ Hs). eexists; split; reflexivity.
  - rewrite (classify_404 _ _ _ Hs). eexists; split; reflexivity.
Qed.

Lemma status_error_kind_witness :
  exists e,
    fst (run (answering (response 404 ∅ "Not found")) (call demo_client (GetStyle "s1")))
    = Threw e /\ kind e = KNotFound.
Proof.
  destruct (status_error_kind demo_client (GetStyle "s1") eq_refl) as (c & H).
  destruct (H (answering (response 404 ∅ "Not found")) (response 404 ∅ "Not found")
              eq_refl) as (_ & _ & H404).
  destruct (H404 eq_refl) as (e & Hrun & Hkind).
  exists e. rewrite Hrun. split; [reflexivity | exact Hkind].
Defined.

Example unauthorized_everywhere :
  map (fun op => fst (run (answering (response 401 ∅ "")) (call demo_client op)))
      [GetMe; DeleteWebhook "w1"; GetTeamProjects "t1"]
  = repeat (Threw (AuthenticationError
                     "Authentication failed. Check your Figma personal access token.")) 3.
Proof. vm_compute. reflexivity. Qed.

(** ** 204 No Content *)

(** C7: for every operation, a response with status 204 yields no value,
    whatever its body: the body is not parsed, so no parse error can come
    of it. *)
Theorem no_content_yields_undefined this op :
  has_token this ->
  exists c, forall rt r,
    net rt c = Responded r -> status r = 204 ->
    run rt (call this op) = (Returned JUndefined, [c]).
Proof.
  intros Htok. destruct (run_call this op Htok) as (endpoint & c & Hrun).
  exists c. intros rt r Hnet Hs. rewrite Hrun, Hnet, (classify_204 _ _ _ Hs).
  simpl. now destruct (returns_void op).
Qed.

Lemma no_content_yields_undefined_witness :
  fst (run (answering (response 204 ∅ "<not json")) (call demo_client (GetFileMeta "abc123")))
  = Returned JUndefined.
Proof.
  destruct (no_content_yields_undefined demo_client (GetFileMeta "abc123") eq_refl)
    as (c & H).
  rewrite (H (answering (response 204 ∅ "<not json")) (response 204 ∅ "<not json")
             eq_refl eq_refl).
  reflexivity.
Defined.

(** ** 2xx with a JSON body *)

(** C6 as stated fails: [deleteComment] is declared [Promise<void>]; on a
    200 whose body is valid JSON it returns nothing, not the parsed body. *)
Lemma success_returns_body_counterexample :
  let r := response 200 ∅ (dq "{'status':200,'error':false}") in
  let v := JObj [("status", JNum (Dec 200 0)); ("error", JBool false)] in
  has_token demo_client /\ ok r = true /\ status r <> 204
  /\ JSON.parse (body r) = Some v
  /\ fst (run (answering r) (call demo_client (DeleteComment "abc123" "42")))
     = Returned JUndefined
  /\ JUndefined <> v.
Proof.
  cbv zeta. split; [reflexivity|]. split; [reflexivity|].
  split; [simpl; lia|]. split; [vm_compute; reflexivity|].
  split; [vm_compute; reflexivity|]. discriminate.
Qed.

(** C6, amended: for every operation but the five declared [Promise<void>]
    ([deleteComment], [postCommentReaction], [deleteCommentReaction],
    [deleteWebhook], [deleteDevResource]), a 2xx response other than 204
    whose body is valid JSON makes the operation return the parsed body
    unchanged; those five return no value. *)
Theorem success_returns_body this op :
  has_token this ->
  exists c, forall rt r v,
    net rt c = Responded r ->
    ok r = true -> status r <> 204 -> JSON.parse (body r) = Some v ->
    run rt (call this op)
    = (Returned (if returns_void op then JUndefined else v), [c]).
Proof.
  intros Htok. destruct (run_call this op Htok) as (endpoint & c & Hrun).
  exists c. intros rt r v Hnet Hok H204 Hparse.
  rewrite Hrun, Hnet, (classify_json _ _ _ _ Hok H204 Hparse). reflexivity.
Qed.

Lemma success_returns_body_witness :
  fst (run (answering (response 200 ∅ (dq "{'id':'7','handle':'ada'}")))
           (call demo_client GetMe))
  = Returned (JObj [("id", JStr "7"); ("handle", JStr "ada")]).
Proof.
  destruct (success_returns_body demo_client GetMe eq_refl) as (c & H).
  set (r := response 200 ∅ (dq "{'id':'7','handle':'ada'}")).
  assert (Hne : status r <> 204) by (simpl; lia).
  rewrite (H (answering r) r (JObj [("id", JStr "7"); ("handle", JStr "ada")])
             eq_refl eq_refl Hne eq_refl).
  reflexivity.
Defined.

(** ** The message of a generic API error *)

Lemma extract_message_first_truthy errorJson message :
  default message (extract_message errorJson message)
  = default message (first_truthy errorJson message_keys).
Proof.
  unfold extract_message, first_truthy, message_keys.
  destruct (Js.get errorJson "message") as [m|]; simpl; [|reflexivity].
  destruct (Js.truthy m); [reflexivity|].
  destruct (Js.get errorJson "err") as [e|]; simpl; [|reflexivity].
  destruct (Js.truthy e); [reflexivity|].
  destruct (Js.get errorJson "error") as [r|]; simpl; [|reflexivity].
  destruct (Js.truthy r); reflexivity.
Qed.

(** C4 as stated fails: a field that is there but falsy (an empty string,
    [false], [0], [null]) is passed over.  On a 500 whose body is an object
    with an empty [message] and an [err] of [Bad request], the error carries
    the value of [err], not that of [message], the first field the body
    has. *)
Lemma api_error_message_counterexample :
  let r := response 500 ∅ (dq "{'message':'','err':'Bad request'}") in
  let v := JObj [("message", JStr ""); ("err", JStr "Bad request")] in
  has_token demo_client /\ unclassified (status r) /\ ok r = false
  /\ JSON.parse (body r) = Some v
  /\ first_present v message_keys = Some (JStr "")
  /\ fst (run (answering r) (call demo_client GetMe))
     = Threw (FigmaApiError (JStr "Bad request") 500)
  /\ JStr "Bad request" <> JStr "".
Proof.
  cbv zeta. split; [reflexivity|]. split; [unfold unclassified; simpl; lia|].
  split; [reflexivity|]. split; [vm_compute; reflexivity|].
  split; [reflexivity|]. split; [vm_compute; reflexivity|]. discriminate.
Qed.

(** C4, amended: for every operation and every response whose status is
    neither 2xx nor one of 429, 401, 403, 404, the operation raises a
    generic API error carrying that status.  When the body is valid JSON
    the message of the error is the value of the first of [message], [err],
    [error], in that order, that is truthy, and the fallback
    ["API error: {status}"] when none is; when the body is not valid JSON
    the message is the fallback. *)
Theorem api_error_message this op :
  has_token this ->
  exists c, forall rt r,
    net rt c = Responded r ->
    unclassified (status r) -> ok r = false ->
    exists m,
      run rt (call this op) = (Threw (FigmaApiError m (status r)), [c])
      /\ (forall v, JSON.parse (body r) = Some v ->
            m = default (fallback_message (status r)) (first_truthy v message_keys))
      /\ (JSON.parse (body r) = None -> m = fallback_message (status r)).
Proof.
  intros Htok. destruct (run_call this op Htok) as (endpoint & c & Hrun).
  exists c. intros rt r Hnet Hu Hok. exists (error_message_of r).
  rewrite Hrun, Hnet, (classify_error _ _ _ Hu Hok). split; [reflexivity|].
  unfold error_message_of, fallback_message. split.
  - intros v ->. apply extract_message_first_truthy.
  - intros ->. reflexivity.
Qed.

Lemma api_error_message_witness :
  fst (run (answering (response 400 ∅ (dq "{'status':400,'err':'Invalid id'}")))
           (call demo_client (GetComponent "c1")))
  = Threw (FigmaApiError (JStr "Invalid id") 400).
Proof.
  destruct (api_error_message demo_client (GetComponent "c1") eq_refl) as (c & H).
  set (r := response 400 ∅ (dq "{'status':400,'err':'Invalid id'}")).
  assert (Hu : unclassified (status r)) by (unfold unclassified; simpl; lia).
  destruct (H (answering r) r eq_refl Hu eq_refl) as (m & Hrun & Hjson & _).
  rewrite Hrun.
  rewrite (Hjson (JObj [("status", JNum (Dec 400 0)); ("err", JStr "Invalid id")]) eq_refl).
  reflexivity.
Defined.

Example api_error_fallback :
  fst (run (answering (response 502 ∅ "<html>Bad Gateway</html>")) (call demo_client GetMe))
  = Threw (FigmaApiError (JStr "API error: 502") 502).
Proof. vm_compute. reflexivity. Qed.

(** ** Rate limiting *)

(** X7: a 429 makes every operation throw a rate-limit error whose
    retry-after value is 60 when the header is absent or empty, and what
    [parseInt] makes of the header otherwise. *)
Lemma rate_limit_retry_after this op :
  has_token this ->
  exists c, forall rt r,
    net rt c = Responded r -> status r = 429 ->
    run rt (call this op)
    = (Threw (RateLimitError "Rate limit exceeded"
                (match headers_get (resp_headers r) "Retry-After" with
                 | Some v => if String.eqb v "" then of_Z 60 else parseInt10 v
                 | None => of_Z 60
                 end)), [c]).
Proof.
  intros Htok. destruct (run_call this op Htok) as (endpoint & c & Hrun).
  exists c. intros rt r Hnet Hs. rewrite Hrun, Hnet, (classify_429 _ _ _ Hs).
  reflexivity.
Qed.

Example retry_after_numeric :
  fst (run (answering (response 429 {[ "retry-after" := "120" ]} "")) (call demo_client GetMe))
  = Threw (RateLimitError "Rate limit exceeded" (Dec 120 0)).
Proof. vm_compute. reflexivity. Qed.

Example retry_after_absent :
  fst (run (answering (response 429 ∅ "")) (call demo_client GetMe))
  = Threw (RateLimitError "Rate limit exceeded" (Dec 60 0)).
Proof. vm_compute. reflexivity. Qed.

(** C3: the code at the failing input.  A 429 whose [Retry-After] header is
    an HTTP date (a form the header may take) is there and is no number:
    the error carries [NaN], where the claim has 60. *)
Theorem retry_after_unparseable_is_NaN :
  run (answering (response 429 {[ "retry-after" := "Wed, 21 Oct 2015 07:28:00 GMT" ]} ""))
      (call demo_client GetMe)
  = (Threw (RateLimitError "Rate limit exceeded" NaN),
     [issued demo_client "/v1/me" no_options]).
Proof. vm_compute. reflexivity. Qed.

(** ** Credentials and the auth headers *)

Lemma validated_has_token creds :
  validateCredentials creds = Returned tt <-> present (accessToken creds) = true.
Proof.
  unfold validateCredentials. destruct (present (accessToken creds)); simpl.
  - tauto.
  - split; discriminate.
Qed.

(** The two checks are the same predicate on the access token: one throws
    exactly when the other does. *)
Lemma same_token_check creds :
  (exists e, validateCredentials creds = Threw e)
  <-> (exists e, getAuthHeaders (FigmaClientImpl.constructor creds) = Threw e).
Proof.
  unfold validateCredentials, getAuthHeaders. simpl.
  destruct (present (accessToken creds)); simpl.
  - split; intros [e He]; discriminate He.
  - split; intros _; eexists; reflexivity.
Qed.

(** C10: [validateCredentials] and [getAuthHeaders] check the same
    predicate on the access token, so one throws exactly when the other
    does; for every credentials value that [validateCredentials] accepts,
    [getAuthHeaders] of the client built from it does not throw: it returns
    the header record with [X-Figma-Token] set to the access token and
    [Content-Type] set to [application/json], and nothing else. *)
Theorem validated_credentials_auth_headers creds :
  ((exists e, validateCredentials creds = Threw e)
   <-> (exists e, getAuthHeaders (FigmaClientImpl.constructor creds) = Threw e))
  /\ (validateCredentials creds = Returned tt ->
      exists token headers,
        accessToken creds = Some token
        /\ getAuthHeaders (FigmaClientImpl.constructor creds) = Returned headers
        /\ headers !! "X-Figma-Token" = Some token
        /\ headers !! "Content-Type" = Some "application/json"
        /\ dom headers = {[ "X-Figma-Token"; "Content-Type" ]}).
Proof.
  split; [apply same_token_check|].
  intros Hv. apply validated_has_token in Hv.
  destruct (accessToken creds) as [token|] eqn:Htok; [|discriminate Hv].
  exists token. eexists. split; [reflexivity|].
  unfold getAuthHeaders. simpl. rewrite Htok, Hv. simpl.
  split; [reflexivity|].
  split; [apply lookup_insert_eq|].
  split; [rewrite lookup_insert_ne by discriminate; apply lookup_insert_eq|].
  rewrite !dom_insert_L, dom_empty_L. set_solver.
Qed.

Lemma validated_credentials_auth_headers_witness :
  validateCredentials demo_credentials = Returned tt
  /\ exists headers,
       getAuthHeaders (FigmaClientImpl.constructor demo_credentials) = Returned headers
       /\ headers !! "X-Figma-Token" = Some "figd_demo".
Proof.
  split; [reflexivity|].
  destruct (validated_credentials_auth_headers demo_credentials) as [_ H].
  destruct (H eq_refl) as (token & headers & Htok & Hget & Hlook & _).
  exists headers. split; [exact Hget|].
  rewrite Hlook. symmetry. exact Htok.
Defined.

(** ** [getFile] with a depth *)

(** C9: [getFile("abc123", {depth: 2})] issues exactly one upstream call, a
    [GET] (no method, no body) of [{base}/v1/files/abc123?depth=2] with the
    auth headers, and returns the parsed body of a 2xx response. *)
Theorem getFile_depth_2 this :
  has_token this ->
  exists c,
    url c = FigmaClientImpl.baseUrl this ++ "/v1/files/abc123?depth=2"
    /\ effective_method c = "GET"
    /\ init_body c = None
    /\ init_headers c !! "X-Figma-Token" = accessToken (credentials this)
    /\ forall rt,
         snd (run rt (getFile this "abc123" (Some depth_2))) = [c]
         /\ forall r v,
              net rt c = Responded r ->
              ok r = true -> status r <> 204 -> JSON.parse (body r) = Some v ->
              fst (run rt (getFile this "abc123" (Some depth_2))) = Returned v.
Proof.
  intros Htok.
  exists (issued this "/v1/files/abc123?depth=2" no_options).
  split; [reflexivity|]. split; [reflexivity|]. split; [reflexivity|].
  split.
  { simpl. rewrite (left_id_L ∅ (∪)), lookup_insert_eq.
    unfold has_token in Htok.
    destruct (accessToken (credentials this)); [reflexivity|discriminate Htok]. }
  intros rt.
  change (getFile this "abc123" (Some depth_2))
    with (request this "/v1/files/abc123?depth=2" no_options).
  rewrite (run_request _ _ _ rt Htok).
  split.
  - destruct (net rt _); reflexivity.
  - intros r v -> Hok H204 Hparse. simpl.
    apply classify_json; assumption.
Qed.

Lemma getFile_depth_2_witness :
  run (answering (response 200 ∅ (dq "{'name':'Landing page','version':'3'}")))
      (getFile demo_client "abc123" (Some depth_2))
  = (Returned (JObj [("name", JStr "Landing page"); ("version", JStr "3")]),
     [ {| url := "https://api.figma.com/v1/files/abc123?depth=2";
          init_method := None; init_body := None;
          init_headers := {[ "X-Figma-Token" := "figd_demo";
                             "Content-Type" := "application/json" ]} |} ]).
Proof.
  destruct (getFile_depth_2 demo_client eq_refl) as (c & _ & _ & _ & _ & H).
  set (r := response 200 ∅ (dq "{'name':'Landing page','version':'3'}")).
  destruct (H (answering r)) as [Hlog Hres].
  assert (Hne : status r <> 204) by (simpl; lia).
  specialize (Hres r (JObj [("name", JStr "Landing page"); ("version", JStr "3")])
                   eq_refl eq_refl Hne eq_refl).
  rewrite (surjective_pairing (run _ _)), Hres. f_equal.
Defined.

Example getFile_depth_2_run :
  run (answering (response 200 ∅ (dq "{'name':'Landing page'}")))
      (getFile demo_client "abc123" (Some depth_2))
  = (Returned (JObj [("name", JStr "Landing page")]),
     [ {| url := "https://api.figma.com/v1/files/abc123?depth=2";
          init_method := None; init_body := None;
          init_headers := {[ "X-Figma-Token" := "figd_demo";
                             "Content-Type" := "application/json" ]} |} ]).
Proof. vm_compute. reflexivity. Qed.

(** ** [testConnection] *)

(** C8: [testConnection] never throws.  When the get-current-user call
    returns a user, it returns [{connected: true, message, user}]; when that
    call throws, what it throws is an [Error], and [testConnection] returns
    [{connected: false, message}] with the message of that error.  It issues
    the calls of the get-current-user call and no other. *)
Theorem testConnection_never_throws E this rt :
  exists result,
    run rt (testConnection E this) = (Returned result, snd (run rt (getMe this)))
    /\ match fst (run rt (getMe this)) with
       | Returned user =>
           result = JObj [("connected", JBool true);
                          ("message", JStr "Successfully connected to Figma API");
                          ("user", user)]
       | Threw error =>
           instanceof_Error error = true
           /\ result = JObj [("connected", JBool false);
                             ("message", JStr (message_of E error))]
       end.
Proof.
  unfold run, testConnection. unfold_client.
  destruct (getMe this rt []) as [[user|error] log] eqn:Hme; simpl.
  - eexists; split; reflexivity.
  - apply request_throws_errors in Hme. rewrite Hme.
    eexists; split; [reflexivity|]. split; reflexivity.
Qed.

Example testConnection_connected :
  fst (run (answering (response 200 ∅ (dq "{'id':'7'}"))) (testConnection demo_errors demo_client))
  = Returned (JObj [("connected", JBool true);
                    ("message", JStr "Successfully connected to Figma API");
                    ("user", JObj [("id", JStr "7")])]).
Proof. vm_compute. reflexivity. Qed.

Example testConnection_forbidden :
  fst (run (answering (response 403 ∅ "")) (testConnection demo_errors demo_client))
  = Returned (JObj [("connected", JBool false);
                    ("message", JStr "Access forbidden. You may not have permission to access this resource.")]).
Proof. vm_compute. reflexivity. Qed.

(** ** The [/mcp] route without a token *)

(** A request without the header, or with an empty one, parses to
    credentials without an access token. *)
Lemma parse_without_token request :
  headers_get (req_headers request) "X-Figma-Token" = None
  \/ headers_get (req_headers request) "X-Figma-Token" = Some "" ->
  accessToken (parseTenantCredentials request) = None.
Proof. simpl. intros [-> | ->]; reflexivity. Qed.

(** C2: a POST to [/mcp] whose credentials parse to an absent access token
    is answered with a 401 whose JSON body has [required_headers] holding
    [X-Figma-Token]; the log of upstream calls stays empty, whatever the MCP
    handler would have done. *)
Theorem missing_token_unauthorized E createMcpHandler request rt :
  pathname request = "/mcp" -> method request = "POST" ->
  accessToken (parseTenantCredentials request) = None ->
  exists resp v,
    run rt (worker_fetch E createMcpHandler request) = (Returned resp, [])
    /\ status resp = 401
    /\ JSON.parse (body resp) = Some v
    /\ Js.get v "required_headers" = Some (JArr [JStr "X-Figma-Token"]).
Proof.
  intros Hpath Hmeth Htok.
  unfold run, worker_fetch, validateCredentials. rewrite Hpath, Hmeth, Htok. simpl.
  eexists. eexists. split; [reflexivity|]. split; [reflexivity|].
  split; [vm_compute; reflexivity | reflexivity].
Qed.

Lemma missing_token_unauthorized_witness :
  exists resp,
    run (answering (response 200 ∅ "{}"))
        (worker_fetch demo_errors demo_mcp_handler
           (demo_request {[ "accept" := "application/json" ]}))
    = (Returned resp, [])
    /\ status resp = 401.
Proof.
  assert (Htok : accessToken (parseTenantCredentials
                                (demo_request {[ "accept" := "application/json" ]}))
                 = None) by (vm_compute; reflexivity).
  destruct (missing_token_unauthorized demo_errors demo_mcp_handler
              (demo_request {[ "accept" := "application/json" ]})
              (answering (response 200 ∅ "{}")) eq_refl eq_refl Htok)
    as (resp & v & Hrun & Hstatus & _).
  exists resp. split; assumption.
Defined.

Example token_reaches_upstream :
  snd (run (answering (response 200 ∅ "{}"))
           (worker_fetch demo_errors demo_mcp_handler
              (demo_request {[ "x-figma-token" := "figd_demo" ]})))
  = [issued demo_client "/v1/me" no_options].
Proof. vm_compute. reflexivity. Qed.

(** ** The tool envelope *)

(** [JSON.stringify] yields [undefined] on [undefined], and on nothing
    else. *)
Lemma stringify2_undefined v : JSON.stringify2 v = None <-> v = JUndefined.
Proof.
  unfold JSON.stringify2. destruct v as [| |b|n|str|items|props]; simpl;
    try (split; discriminate); [tauto|].
  destruct n; split; discriminate.
Qed.

Lemma formatResponse_envelope data :
  data <> JUndefined -> success_envelope (formatResponse data).
Proof.
  intros Hd. unfold success_envelope, conforms, formatResponse. simpl.
  destruct (JSON.stringify2 data) as [t|] eqn:Hs.
  - split; [exists t|]; reflexivity.
  - apply stringify2_undefined in Hs. contradiction.
Qed.

Lemma formatError_envelope E error : failure_envelope (formatError E error).
Proof.
  unfold failure_envelope, conforms, formatError. simpl.
  split; [eexists|]; reflexivity.
Qed.

Lemma formatSuccess_envelope message :
  success_envelope (formatSuccess message JUndefined).
Proof.
  unfold success_envelope, conforms, formatSuccess. simpl.
  split; [eexists|]; reflexivity.
Qed.

Lemma respond_run E (m : Client JsValue) rt log :
  respond E m rt log
  = match m rt log with
    | (Returned result, log') => (Returned (formatResponse result), log')
    | (Threw error, log') => (Returned (formatError E error), log')
    end.
Proof.
  unfold respond, try_catch, mbind, Client_bind, bind.
  destruct (m rt log) as [[result|error] log']; reflexivity.
Qed.

Lemma succeed_run E (m : Client JsValue) message rt log :
  succeed E m message rt log
  = match m rt log with
    | (Returned _, log') => (Returned (formatSuccess message JUndefined), log')
    | (Threw error, log') => (Returned (formatError E error), log')
    end.
Proof.
  unfold succeed, try_catch, mbind, Client_bind, bind.
  destruct (m rt log) as [[result|error] log']; reflexivity.
Qed.

(** X18: no handler lets an error through: on every client, every call
    and every runtime the handler returns a response.  It is a success envelope,
    a failure envelope, or the response whose [text] is [undefined], which
    [formatResponse] builds when the client call returns no value. *)
Lemma handler_returns E client t rt log :
  exists r log',
    handler E client t rt log = (Returned r, log')
    /\ (success_envelope r \/ failure_envelope r \/ r = formatResponse JUndefined).
Proof.
  assert (Hresp : forall m : Client JsValue,
             exists r log',
               respond E m rt log = (Returned r, log')
               /\ (success_envelope r \/ failure_envelope r
                   \/ r = formatResponse JUndefined)).
  { intros m. rewrite respond_run.
    destruct (m rt log) as [[result|error] log'].
    - eexists; eexists; split; [reflexivity|].
      destruct result; try (left; apply formatResponse_envelope; discriminate).
      right; right; reflexivity.
    - eexists; eexists; split; [reflexivity|].
      right; left; apply formatError_envelope. }
  assert (Hsucc : forall (m : Client JsValue) message,
             exists r log',
               succeed E m message rt log = (Returned r, log')
               /\ (success_envelope r \/ failure_envelope r
                   \/ r = formatResponse JUndefined)).
  { intros m message. rewrite succeed_run.
    destruct (m rt log) as [[result|error] log'];
      eexists; eexists; (split; [reflexivity|]).
    - left; apply formatSuccess_envelope.
    - right; left; apply formatError_envelope. }
  destruct t; simpl; try apply Hresp; try apply Hsucc.
  unfold try_catch, mbind, Client_bind, bind.
  destruct (test_connection client rt log) as [[result|error] log'];
    eexists; eexists; (split; [reflexivity|]).
  - destruct result;
      try (left; apply (formatResponse_envelope _); discriminate).
    right; right; reflexivity.
  - right; left. split; [eexists|]; reflexivity.
Qed.

(** X19: with the client of the repository, [figma_test_connection]
    always returns a success envelope, also when the connection fails:
    [testConnection] returns an object and never throws, so the [catch]
    branch of the tool is never taken. *)
Lemma test_connection_envelope E creds rt log :
  exists r log',
    handler E (createFigmaClient E creds) figma_test_connection rt log
    = (Returned r, log')
    /\ success_envelope r.
Proof.
  simpl. unfold try_catch, mbind, Client_bind, bind, testConnection, try_catch.
  unfold mbind, Client_bind, bind, mret, Client_ret, ret.
  destruct (getMe (FigmaClientImpl.constructor creds) rt log) as [[user|error] log'];
    simpl; eexists; eexists; (split; [reflexivity|]);
    (split; [eexists|]; reflexivity).
Qed.

(** C1: the code at the failing input.  The upstream answers the call of
    [figma_get_file] with 204; [getFile] returns no value, and the handler
    returns a content block whose [text] is [undefined]: no error flag, and
    no text either, so the response is not an envelope. *)
Theorem get_file_no_content_breaks_envelope E :
  run (answering (response 204 ∅ ""))
      (handler E (createFigmaClient E demo_credentials)
         (figma_get_file "abc123" None None None))
  = (Returned {| content := [{| type := "text"; text := None |}]; isError := None |},
     [issued demo_client "/v1/files/abc123" no_options])
  /\ ~ conforms {| content := [{| type := "text"; text := None |}]; isError := None |}.
Proof.
  split.
  - vm_compute. reflexivity.
  - intros [t Ht]. discriminate Ht.
Qed.

Example get_file_envelope :
  fst (run (answering (response 200 ∅ (dq "{'name':'Landing page'}")))
           (handler demo_errors (createFigmaClient demo_errors demo_credentials)
              (figma_get_file "abc123" None (Some (of_Z 2)) None)))
  = Returned {| content := [{| type := "text";
                               text := Some (dq "{
  'name': 'Landing page'
}") |}];
                isError := None |}.
Proof. vm_compute. reflexivity. Qed.

Example get_file_error_envelope :
  fst (run (answering (response 503 ∅ (dq "{'err':'Busy'}")))
           (handler demo_errors (createFigmaClient demo_errors demo_credentials)
              (figma_get_file "abc123" None None None)))
  = Returned {| content := [{| type := "text";
                               text := Some (dq "{
  'error': 'Error: Busy (retryable)',
  'details': {
    'kind': 500
  }
}") |}];
                isError := Some true |}.
Proof. vm_compute. reflexivity. Qed.

(** * Further properties of the client *)




(** X1: a client without a usable access token (absent or empty) issues
    no upstream call: every operation throws the authentication error of
    [getAuthHeaders] with an empty log. *)
Theorem no_token_no_upstream_call this op rt :
  ~ has_token this ->
  run rt (call this op)
  = (Threw (AuthenticationError
              "No credentials provided. Include X-Figma-Token header with your Figma personal access token."),
     []).
Proof.
  intros Htok. destruct (call_request this op) as (endpoint & options & Hcall).
  assert (Hreq : run rt (request this endpoint options)
                 = (Threw (AuthenticationError
                             "No credentials provided. Include X-Figma-Token header with your Figma personal access token."),
                    [])).
  { unfold has_token in Htok. unfold run, request, getAuthHeaders.
    destruct (present (accessToken (credentials this))); [congruence|].
    reflexivity. }
  rewrite Hcall. unfold run in *.
  destruct (returns_void op); [|exact Hreq].
  unfold_client. rewrite Hreq. reflexivity.
Qed.

Lemma no_token_no_upstream_call_witness :
  snd (run (answering (response 200 ∅ "{}"))
           (call (FigmaClientImpl.constructor
                    {| TenantCredentials.accessToken := Some "";
                       TenantCredentials.baseUrl := None |})
                 (DeleteWebhook "w1")))
  = [].
Proof.
  rewrite (no_token_no_upstream_call
             (FigmaClientImpl.constructor
                {| TenantCredentials.accessToken := Some "";
                   TenantCredentials.baseUrl := None |})
             (DeleteWebhook "w1") (answering (response 200 ∅ "{}"))).
  - reflexivity.
  - unfold has_token. simpl. discriminate.
Defined.



(** X3: a 2xx response other than 204 whose body is not valid JSON makes
    every operation throw the [SyntaxError] of [response.json()], the five
    [Promise<void>] methods included: they discard the value of the body but
    still have it parsed. *)
Theorem invalid_json_body_throws this op :
  has_token this ->
  exists c, forall rt r,
    net rt c = Responded r ->
    ok r = true -> status r <> 204 -> JSON.parse (body r) = None ->
    run rt (call this op)
    = (Threw (JsError "SyntaxError" (syntax_error_message rt (body r))), [c]).
Proof.
  intros Htok. destruct (run_call this op Htok) as (endpoint & c & Hrun).
  exists c. intros rt r Hnet Hok H204 Hparse. rewrite Hrun, Hnet.
  assert (Hu : unclassified (status r)).
  { apply ok_unclassified. unfold ok in Hok. lia. }
  apply unclassified_eqb in Hu as (H1 & H2 & H3 & H4).
  apply Z.eqb_neq in H204.
  unfold classify, response_json. rewrite H1, H2, H3, H4, Hok, H204, Hparse.
  reflexivity.
Qed.

Lemma invalid_json_body_throws_witness :
  fst (run (answering (response 200 ∅ "")) (call demo_client (DeleteComment "abc123" "42")))
  = Threw (JsError "SyntaxError" "Unexpected token in JSON").
Proof.
  destruct (invalid_json_body_throws demo_client (DeleteComment "abc123" "42") eq_refl)
    as (c & H).
  set (r := response 200 ∅ "").
  assert (Hne : status r <> 204) by (simpl; lia).
  rewrite (H (answering r) r eq_refl eq_refl Hne eq_refl).
  reflexivity.
Defined.

(** X4: no response outside 2xx is ever returned as a value: every
    operation throws on it, and the error tells the status apart (429 a
    rate-limit error, 401, 403 and 404 their own kinds, any other status a
    generic API error carrying it). *)
Theorem non_2xx_always_throws this op :
  has_token this ->
  exists c, forall rt r,
    net rt c = Responded r -> ok r = false ->
    exists e,
      run rt (call this op) = (Threw e, [c])
      /\ kind e = (if status r =? 429 then KRateLimit
                   else if status r =? 401 then KAuthentication
                   else if status r =? 403 then KForbidden
                   else if status r =? 404 then KNotFound
                   else KApi)
      /\ (kind e = KApi -> exists m, e = FigmaApiError m (status r)).
Proof.
  intros Htok. destruct (run_call this op Htok) as (endpoint & c & Hrun).
  exists c. intros rt r Hnet Hok. rewrite Hrun, Hnet.
  unfold classify. rewrite Hok. simpl. unfold_client.
  repeat case_match; simpl; eexists;
    (split; [reflexivity | split; [reflexivity | intros Hk; try discriminate Hk]]).
  eexists. reflexivity.
Qed.

Lemma non_2xx_always_throws_witness :
  exists e,
    fst (run (answering (response 500 ∅ "")) (call demo_client (CreateDevResources [])))
    = Threw e /\ kind e = KApi.
Proof.
  destruct (non_2xx_always_throws demo_client (CreateDevResources []) eq_refl) as (c & H).
  destruct (H (answering (response 500 ∅ "")) (response 500 ∅ "") eq_refl eq_refl)
    as (e & Hrun & Hkind & _).
  exists e. rewrite Hrun. split; [reflexivity | exact Hkind].
Defined.

(** X5: the message of a generic API error is never falsy: it is a truthy
    value taken from the body, or the non-empty fallback text. *)
Theorem api_error_message_truthy this op :
  has_token this ->
  exists c, forall rt r,
    net rt c = Responded r -> unclassified (status r) -> ok r = false ->
    exists m,
      run rt (call this op) = (Threw (FigmaApiError m (status r)), [c])
      /\ Js.truthy m = true.
Proof.
  intros Htok. destruct (run_call this op Htok) as (endpoint & c & Hrun).
  exists c. intros rt r Hnet Hu Hok. exists (error_message_of r).
  rewrite Hrun, Hnet, (classify_error _ _ _ Hu Hok). split; [reflexivity|].
  unfold error_message_of.
  destruct (JSON.parse (body r)) as [errorJson|]; [|reflexivity].
  unfold extract_message.
  destruct (Js.get errorJson "message") as [m|]; simpl; [|reflexivity].
  destruct (Js.truthy m) eqn:Hm; [exact Hm|].
  destruct (Js.get errorJson "err") as [e|]; simpl; [|reflexivity].
  destruct (Js.truthy e) eqn:He; [exact He|].
  destruct (Js.get errorJson "error") as [x|]; simpl; [|reflexivity].
  destruct (Js.truthy x) eqn:Hx; [exact Hx|reflexivity].
Qed.

Lemma api_error_message_truthy_witness :
  exists m,
    fst (run (answering (response 500 ∅ (dq "{'message':'','error':false}")))
             (call demo_client GetMe))
    = Threw (FigmaApiError m 500)
    /\ Js.truthy m = true.
Proof.
  destruct (api_error_message_truthy demo_client GetMe eq_refl) as (c & H).
  set (r := response 500 ∅ (dq "{'message':'','error':false}")).
  assert (Hu : unclassified (status r)) by (unfold unclassified; simpl; lia).
  destruct (H (answering r) r eq_refl Hu eq_refl) as (m & Hrun & Hm).
  exists m. rewrite Hrun. split; [reflexivity | exact Hm].
Defined.

(** X6: a rejected [fetch] (a network failure) goes through every
    operation as it is: the operation throws the error [fetch] rejected
    with, after the one call. *)
Theorem fetch_rejection_propagates this op :
  has_token this ->
  exists c, forall rt name message,
    net rt c = Rejected name message ->
    run rt (call this op) = (Threw (JsError name message), [c]).
Proof.
  intros Htok. destruct (run_call this op Htok) as (endpoint & c & Hrun).
  exists c. intros rt name message Hnet. rewrite Hrun, Hnet. reflexivity.
Qed.

Lemma fetch_rejection_propagates_witness :
  fst (run unreachable (call demo_client (GetFileStyles "abc123")))
  = Threw (JsError "TypeError" "fetch failed").
Proof.
  destruct (fetch_rejection_propagates demo_client (GetFileStyles "abc123") eq_refl)
    as (c & H).
  rewrite (H unreachable "TypeError" "fetch failed" eq_refl).
  reflexivity.
Defined.

Lemma rate_limit_retry_after_witness :
  fst (run (answering (response 429 {[ "retry-after" := "30" ]} ""))
           (call demo_client (GetTeamStyles "t1" None)))
  = Threw (RateLimitError "Rate limit exceeded" (Dec 30 0)).
Proof.
  destruct (rate_limit_retry_after demo_client (GetTeamStyles "t1" None) eq_refl)
    as (c & H).
  rewrite (H (answering (response 429 {[ "retry-after" := "30" ]} ""))
             (response 429 {[ "retry-after" := "30" ]} "") eq_refl eq_refl).
  vm_compute. reflexivity.
Defined.

(** * Further properties of the tools and the server entry *)

Lemma respond_log E (m : Client JsValue) rt log :
  snd (respond E m rt log) = snd (m rt log).
Proof. rewrite respond_run. destruct (m rt log) as [[v|e] l]; reflexivity. Qed.





(** X10: [figma_create_webhook] sends one [POST] to [{base}/v2/webhooks]
    whose body is the JSON of the four required fields: the optional
    [status] and [description], when left out, are not part of the body. *)
Theorem create_webhook_request E creds event_type team_id endpoint passcode :
  present (accessToken creds) = true ->
  exists c,
    url c = FigmaClientImpl.baseUrl (FigmaClientImpl.constructor creds) ++ "/v2/webhooks"
    /\ effective_method c = "POST"
    /\ init_body c
       = JSON.stringify (JObj [("event_type", JStr event_type);
                               ("team_id", JStr team_id);
                               ("endpoint", JStr endpoint);
                               ("passcode", JStr passcode)])
    /\ forall rt,
         snd (run rt (handler E (createFigmaClient E creds)
                        (figma_create_webhook event_type team_id endpoint passcode
                           None None)))
         = [c].
Proof.
  intros Htok.
  set (input := JObj [("event_type", JStr event_type); ("team_id", JStr team_id);
                      ("endpoint", JStr endpoint); ("passcode", JStr passcode);
                      ("status", JUndefined); ("description", JUndefined)]).
  exists (issued (FigmaClientImpl.constructor creds) "/v2/webhooks"
            (with_body "POST" (JSON.stringify input))).
  split; [reflexivity|]. split; [reflexivity|]. split; [reflexivity|].
  intros rt. unfold run, createFigmaClient. cbn [handler invoke call js_opt_string].
  rewrite respond_log. unfold createWebhook. fold input.
  pose proof (run_request (FigmaClientImpl.constructor creds) "/v2/webhooks"
                (with_body "POST" (JSON.stringify input)) rt Htok) as Hrun.
  unfold run in Hrun. rewrite Hrun. destruct (net rt _); reflexivity.
Qed.

Lemma create_webhook_request_witness :
  exists c,
    init_body c
    = Some (dq "{'event_type':'FILE_UPDATE','team_id':'T1','endpoint':'https://x','passcode':'p'}")
    /\ snd (run (answering (response 200 ∅ "{}"))
              (handler demo_errors (createFigmaClient demo_errors demo_credentials)
                 (figma_create_webhook "FILE_UPDATE" "T1" "https://x" "p" None None)))
       = [c].
Proof.
  destruct (create_webhook_request demo_errors demo_credentials
              "FILE_UPDATE" "T1" "https://x" "p" eq_refl)
    as (c & _ & _ & Hbody & Hlog).
  exists c. split; [rewrite Hbody; vm_compute; reflexivity | apply Hlog].
Defined.

(** X11: for a POST to [/mcp], the gate is the presence of a non-empty
    [X-Figma-Token] header and nothing else: with one, the route builds the
    server for the credentials of the request and answers with whatever the
    MCP handler answers, issuing no call of its own. *)
Theorem mcp_request_is_handed_off E createMcpHandler request rt :
  pathname request = "/mcp" -> method request = "POST" ->
  present (headers_get (req_headers request) "X-Figma-Token") = true ->
  run rt (worker_fetch E createMcpHandler request)
  = run rt (createMcpHandler
              (createStatelessServer E (parseTenantCredentials request)) request).
Proof.
  intros Hpath Hmeth Htok. unfold run, worker_fetch, validateCredentials.
  rewrite Hpath, Hmeth. simpl.
  unfold or_undefined at 1. rewrite Htok. rewrite Htok. reflexivity.
Qed.

Lemma mcp_request_is_handed_off_witness :
  fst (run (answering (response 200 ∅ (dq "{'id':'7'}")))
           (worker_fetch demo_errors demo_mcp_handler
              (demo_request {[ "x-figma-token" := "figd_demo" ]})))
  = Returned (new_Response (dq "{
  'id': '7'
}") 200 json_headers).
Proof.
  rewrite (mcp_request_is_handed_off demo_errors demo_mcp_handler
             (demo_request {[ "x-figma-token" := "figd_demo" ]})
             (answering (response 200 ∅ (dq "{'id':'7'}"))) eq_refl eq_refl).
  - vm_compute. reflexivity.
  - vm_compute. reflexivity.
Defined.

(** X12: every request that is not a POST to [/mcp] is answered from
    constants, without credentials and without an upstream call: [/health]
    with the status document, [/sse] with 501, and every other path (a GET
    of [/mcp] among them) with the 200 discovery document that lists the
    tools. *)
Theorem other_routes_are_static E createMcpHandler request rt :
  ~ (pathname request = "/mcp" /\ method request = "POST") ->
  exists resp,
    run rt (worker_fetch E createMcpHandler request) = (Returned resp, [])
    /\ (pathname request = "/health" ->
        status resp = 200
        /\ JSON.parse (body resp)
           = Some (JObj [("status", JStr "ok"); ("server", JStr SERVER_NAME)]))
    /\ (pathname request = "/sse" -> status resp = 501)
    /\ (pathname request <> "/health" -> pathname request <> "/sse" ->
        status resp = 200
        /\ JSON.parse (body resp) = Some info_body
        /\ Js.get info_body "tools" = Some (JArr (map JStr tool_names))).
Proof.
  intros Hnot. unfold run, worker_fetch.
  destruct (String.eqb_spec (pathname request) "/health") as [Hh|Hh].
  { eexists. split; [reflexivity|]. rewrite Hh.
    split; [intros _; split; [reflexivity | vm_compute; reflexivity]|].
    split; [discriminate | congruence]. }
  assert (Hmcp : String.eqb (pathname request) "/mcp"
                 && String.eqb (method request) "POST" = false).
  { destruct (String.eqb_spec (pathname request) "/mcp");
      destruct (String.eqb_spec (method request) "POST"); simpl; tauto. }
  rewrite Hmcp.
  destruct (String.eqb_spec (pathname request) "/sse") as [Hs|Hs].
  { eexists. split; [reflexivity|].
    split; [congruence|]. split; [reflexivity | congruence]. }
  eexists. split; [reflexivity|].
  split; [congruence|]. split; [congruence|].
  intros _ _. split; [reflexivity|]. split; [vm_compute; reflexivity | reflexivity].
Qed.

Lemma other_routes_are_static_witness :
  exists resp,
    run unreachable
        (worker_fetch demo_errors demo_mcp_handler
           {| pathname := "/mcp"; method := "GET"; req_headers := ∅ |})
    = (Returned resp, [])
    /\ status resp = 200.
Proof.
  assert (Hnot : ~ (pathname {| pathname := "/mcp"; method := "GET"; req_headers := ∅ |}
                    = "/mcp"
                    /\ method {| pathname := "/mcp"; method := "GET"; req_headers := ∅ |}
                       = "POST"))
    by (simpl; intros [_ H]; discriminate H).
  destruct (other_routes_are_static demo_errors demo_mcp_handler
              {| pathname := "/mcp"; method := "GET"; req_headers := ∅ |}
              unreachable Hnot)
    as (resp & Hrun & _ & _ & Hinfo).
  exists resp. split; [exact Hrun|].
  apply Hinfo; simpl; discriminate.
Defined.

(** X13: the discovery document and the registry agree: the tools it
    lists are the names the 44 tools are registered under, each once. *)
Theorem tool_names_are_the_registered_tools :
  map tool_name sample_calls = tool_names
  /\ NoDup tool_names
  /\ forall t, In (tool_name t) tool_names.
Proof.
  split; [reflexivity|]. split.
  - apply (bool_decide_unpack _). vm_compute. reflexivity.
  - intros t. destruct t; simpl; repeat (first [left; reflexivity | right]).
Qed.

(** * Further properties of the helpers *)

(** ** Numeric environment values *)



Example env_limits_unchecked :
  let env key := match key with
                 | CHARACTER_LIMIT => EnvString "50000 chars"
                 | DEFAULT_PAGE_SIZE => EnvString "-5"
                 | MAX_PAGE_SIZE => EnvString "many"
                 | _ => EnvBinding
                 end in
  (getCharacterLimit env, getDefaultPageSize env, getMaxPageSize env)
  = (of_Z 50000, of_Z (-5), of_Z 100).
Proof. reflexivity. Qed.

(** ** [truncate] *)

Lemma length_append s t :
  String.length (s ++ t) = (String.length s + String.length t)%nat.
Proof. induction s as [|c s IH]; simpl; [reflexivity | now rewrite IH]. Qed.

Lemma length_take n s :
  String.length (JsNum.take n s) = Nat.min n (String.length s).
Proof.
  revert s. induction n as [|n IH]; intros [|c s]; simpl; try reflexivity.
  now rewrite IH.
Qed.

(** [str.slice(0, end)] is a prefix of [str]: its first [end] code units,
    or all but the last [-end] when [end] is negative. *)
Lemma slice_from_0 str e :
  slice str 0 e
  = JsNum.take (Z.to_nat (if e <? 0 then Z.of_nat (String.length str) + e else e)) str.
Proof.
  unfold slice. simpl.
  assert (Hlen : 0 <= Z.of_nat (String.length str)) by lia.
  rewrite (Z.min_l 0 _ Hlen). simpl. rewrite Z.sub_0_r.
  destruct (e <? 0) eqn:He.
  - apply Z.ltb_lt in He. f_equal. lia.
  - apply Z.ltb_ge in He.
    assert (Hcut : forall n s, (String.length s <= n)%nat ->
                               JsNum.take n s = JsNum.take (String.length s) s).
    { intros n s. revert n. induction s as [|c s IH]; intros [|n] Hn; simpl in *;
        try reflexivity; try lia.
      f_equal. apply IH. lia. }
    destruct (Z.le_gt_cases e (Z.of_nat (String.length str))) as [Hle|Hgt].
    + f_equal. lia.
    + rewrite Z.min_r by lia. rewrite Z.max_l by lia.
      rewrite Nat2Z.id. symmetry. apply Hcut. lia.
Qed.

(** X15: for a limit of at least 3, [truncate] keeps the result within
    the limit: a string that fits comes back as it is, and a longer one
    becomes its first [maxLength - 3] code units followed by three dots,
    [maxLength] code units in all. *)
Theorem truncate_within_limit str maxLength :
  3 <= maxLength ->
  Z.of_nat (String.length (truncate str maxLength)) <= maxLength
  /\ (Z.of_nat (String.length str) <= maxLength -> truncate str maxLength = str)
  /\ (maxLength < Z.of_nat (String.length str) ->
      truncate str maxLength
      = JsNum.take (Z.to_nat (maxLength - 3)) str ++ "..."
      /\ Z.of_nat (String.length (truncate str maxLength)) = maxLength).
Proof.
  intros Hmax. unfold truncate.
  destruct (Z.leb_spec (Z.of_nat (String.length str)) maxLength) as [Hfit|Hlong].
  - split; [exact Hfit|]. split; [reflexivity | lia].
  - rewrite slice_from_0.
    assert (He : (maxLength - 3 <? 0) = false) by (apply Z.ltb_ge; lia).
    rewrite He.
    assert (Hlen : Z.of_nat (String.length
                               (JsNum.take (Z.to_nat (maxLength - 3)) str ++ "..."))
                   = maxLength).
    { rewrite length_append, length_take. simpl. lia. }
    split; [lia|]. split; [lia|]. intros _. split; [reflexivity | exact Hlen].
Qed.

Lemma truncate_within_limit_witness :
  truncate "Landing page hero" 10 = "Landing..."
  /\ truncate "Hero" 10 = "Hero".
Proof.
  assert (H3 : 3 <= 10) by lia.
  destruct (truncate_within_limit "Landing page hero" 10 H3) as (_ & _ & Hlong).
  destruct (truncate_within_limit "Hero" 10 H3) as (_ & Hfit & _).
  split.
  - destruct Hlong as [-> _]; [simpl; lia | reflexivity].
  - apply Hfit. simpl. lia.
Defined.

(** X16: below 3 the limit is not kept: the end index [maxLength - 3] is
    negative and [slice] counts it from the end, so a string that does not
    fit comes back longer than the limit. *)
Theorem truncate_small_limit_overflows str maxLength :
  maxLength < 3 -> maxLength < Z.of_nat (String.length str) ->
  maxLength < Z.of_nat (String.length (truncate str maxLength))
  /\ 3 <= Z.of_nat (String.length (truncate str maxLength)).
Proof.
  intros Hsmall Hlong. unfold truncate.
  destruct (Z.leb_spec (Z.of_nat (String.length str)) maxLength) as [Hfit|_]; [lia|].
  rewrite length_append. simpl. lia.
Qed.

Lemma truncate_small_limit_overflows_witness :
  truncate "abcdef" 2 = "abcde..."
  /\ 2 < Z.of_nat (String.length (truncate "abcdef" 2)).
Proof.
  split; [reflexivity|].
  apply (truncate_small_limit_overflows "abcdef" 2); simpl; lia.
Defined.

(** * Further properties of the handlers *)

(** X17: [isError] marks the thrown outcomes and only them.  Every tool
    but [figma_test_connection] runs one client method; it issues no
    upstream call besides those of the method, answers [formatError] of what
    the method throws, and, when the method returns, [formatResponse] of the
    value or a [formatSuccess] message, without [isError]. *)
Theorem handler_reports_outcome E client tc rt log :
  tc <> figma_test_connection ->
  exists op r,
    handler E client tc rt log = (Returned r, snd (invoke client op rt log))
    /\ match fst (invoke client op rt log) with
       | Returned v =>
           isError r = None
           /\ (r = formatResponse v
               \/ exists message, r = formatSuccess message JUndefined)
       | Threw error => r = formatError E error
       end.
Proof.
  intros Hne.
  assert (Hresp : forall op,
             exists r,
               respond E (invoke client op) rt log
               = (Returned r, snd (invoke client op rt log))
               /\ match fst (invoke client op rt log) with
                  | Returned v =>
                      isError r = None
                      /\ (r = formatResponse v
                          \/ exists message, r = formatSuccess message JUndefined)
                  | Threw error => r = formatError E error
                  end).
  { intros op. rewrite respond_run.
    destruct (invoke client op rt log) as [[v|e] l]; eexists;
      (split; [reflexivity|]); simpl; [|reflexivity].
    split; [reflexivity | left; reflexivity]. }
  assert (Hsucc : forall op message,
             exists r,
               succeed E (invoke client op) message rt log
               = (Returned r, snd (invoke client op rt log))
               /\ match fst (invoke client op rt log) with
                  | Returned v =>
                      isError r = None
                      /\ (r = formatResponse v
                          \/ exists message, r = formatSuccess message JUndefined)
                  | Threw error => r = formatError E error
                  end).
  { intros op message. rewrite succeed_run.
    destruct (invoke client op rt log) as [[v|e] l]; eexists;
      (split; [reflexivity|]); simpl; [|reflexivity].
    split; [reflexivity | right; eexists; reflexivity]. }
  destruct tc; cbn [handler]; try congruence;
    eexists; first [apply Hresp | apply Hsucc].
Qed.

Lemma handler_reports_outcome_witness :
  exists r,
    fst (run (answering (response 404 ∅ ""))
             (handler demo_errors (createFigmaClient demo_errors demo_credentials)
                (figma_get_style "s1")))
    = Returned r
    /\ r = formatError demo_errors (NotFoundError "Resource" "/v1/styles/s1").
Proof.
  assert (Hne : figma_get_style "s1" <> figma_test_connection) by discriminate.
  destruct (handler_reports_outcome demo_errors
              (createFigmaClient demo_errors demo_credentials)
              (figma_get_style "s1") (answering (response 404 ∅ "")) [] Hne)
    as (op & r & Hrun & Hout).
  exists r. unfold run. rewrite Hrun. split; [reflexivity|].
  assert (Hr : Returned r
               = Returned (formatError demo_errors (NotFoundError "Resource" "/v1/styles/s1"))).
  { change (Returned r)
      with (fst (Returned r, snd (invoke (createFigmaClient demo_errors demo_credentials)
                                         op (answering (response 404 ∅ "")) []))).
    rewrite <- Hrun. vm_compute. reflexivity. }
  injection Hr as ->. reflexivity.
Defined.

(** X8: without a token, [testConnection] still returns: it reports
    [connected: false] with the message of the authentication error of
    [getAuthHeaders], and no upstream call is issued. *)
Theorem testConnection_without_token E this rt :
  ~ has_token this ->
  run rt (testConnection E this)
  = (Returned
       (JObj [("connected", JBool false);
              ("message",
               JStr (class_message E
                       (AuthenticationError
                          "No credentials provided. Include X-Figma-Token header with your Figma personal access token.")))]),
     []).
Proof.
  intros Htok. unfold has_token in Htok.
  unfold run, testConnection, getMe, request, getAuthHeaders. unfold_client.
  destruct (present (accessToken (credentials this))); [congruence|].
  reflexivity.
Qed.

Lemma testConnection_without_token_witness :
  run unreachable
      (testConnection demo_errors
         (FigmaClientImpl.constructor
            {| TenantCredentials.accessToken := None;
               TenantCredentials.baseUrl := None |}))
  = (Returned
       (JObj [("connected", JBool false);
              ("message",
               JStr "No credentials provided. Include X-Figma-Token header with your Figma personal access token.")]),
     []).
Proof.
  rewrite (testConnection_without_token demo_errors
             (FigmaClientImpl.constructor
                {| TenantCredentials.accessToken := None;
                   TenantCredentials.baseUrl := None |})
             unreachable).
  - reflexivity.
  - unfold has_token. simpl. discriminate.
Defined.
